(** * ARKANUM SENTINEL: a shallow embedding of [Main.py]

    The development follows the layout of the single source file:
    text and the concept classifier, the taxonomy table, the EFOS check,
    the risk engine, the CFDI parser, the JSON-file stores with the
    request handlers that append to them, the exports and the access
    wrapper.  Every definition carries the line range of [Main.py] it
    embeds. *)

From Stdlib Require Import ZArith NArith List String Ascii Lia Bool Sorted.
From stdpp Require Import base decidable option list gmap strings pretty.

Local Open Scope Z_scope.

(** ** Python text

    A Python [str] is a sequence of Unicode code points. *)

Module PyStr.

Abbreviation str := (list N).

(** Reading of the UTF-8 bytes of a literal as code points; one- and
    two-byte sequences, which is what the literals of [Main.py] use. *)
Fixpoint utf8_decode (bs : list N) : str :=
  match bs with
  | [] => []
  | b0 :: rest =>
      if (b0 <? 192)%N then b0 :: utf8_decode rest
      else match rest with
           | [] => [b0]
           | b1 :: rest' => ((b0 - 192) * 64 + (b1 - 128))%N :: utf8_decode rest'
           end
  end.

Definition py (s : string) : str :=
  utf8_decode (map N_of_ascii (list_ascii_of_string s)).

(** [str.upper()] maps each code point through the full upper-case
    mapping of the Unicode database and concatenates the images.  On
    ASCII that mapping sends a-z to A-Z and fixes everything else; above
    ASCII it is the table of the interpreter, taken as [unicode_upper]. *)
Section Upper.
Variable unicode_upper : N -> str.

Definition is_ascii_lower (c : N) : bool := (97 <=? c)%N && (c <=? 122)%N.

Definition upper_cp (c : N) : str :=
  if (c <? 128)%N then (if is_ascii_lower c then [(c - 32)%N] else [c])
  else unicode_upper c.

Definition upper (s : str) : str := concat (map upper_cp s).
End Upper.

(** [k in s] on two strings: [k] occurs in [s] as a contiguous run. *)
Fixpoint startswith (k s : str) : bool :=
  match k, s with
  | [], _ => true
  | _ :: _, [] => false
  | a :: k', b :: s' => (a =? b)%N && startswith k' s'
  end.

Fixpoint str_in (k s : str) : bool :=
  startswith k s ||
  match s with
  | [] => false
  | _ :: s' => str_in k s'
  end.

(** Two code points that differ at most by ASCII letter case. *)
Definition same_letter (a b : N) : Prop :=
  a = b \/
  (is_ascii_lower a = true /\ b = (a - 32)%N) \/
  (is_ascii_lower b = true /\ a = (b - 32)%N).

(** Text of ASCII code points none of which is a lower-case letter. *)
Definition ascii_caps (k : str) : Prop :=
  Forall (fun c => (c < 128)%N /\ is_ascii_lower c = false) k.

(** [k] occurs in [s] as a contiguous run. *)
Definition occurs (k s : str) : Prop := exists pre post, s = pre ++ k ++ post.

End PyStr.
Import PyStr.

(** ** Category keys and keywords of the classifier *)

Definition SERVICIOS_PROFESIONALES : str := py "SERVICIOS PROFESIONALES".
Definition ARRENDAMIENTO : str := py "ARRENDAMIENTO".
Definition PUBLICIDAD : str := py "PUBLICIDAD".
Definition GENERICO : str := py "GENÉRICO".

(** ** What the interpreter provides

    [float], [round] and the Unicode case tables are built-ins of the
    Python runtime, not code of [Main.py]; the program is embedded over
    any implementation of them.  [float_of_str s = None] stands for the
    [ValueError] that [float(s)] raises on text that is not a number. *)
Class PyBuiltins := {
  unicode_upper : N -> str;
  float : Type;
  float_of_str : str -> option float;
  float_of_int : Z -> float;
  float_sub : float -> float -> float;
  round_ndigits : float -> Z -> float;
  float_repr : float -> str
}.

(** ** Taxonomy table ([Main.py], lines 96-117) *)

Record TaxonomyEntry := {
  materialidad : list str;
  isr_deductible : bool;
  iva_creditable : bool
}.

Definition TAXONOMY : gmap str TaxonomyEntry :=
  list_to_map
    [ (py "SERVICIOS PROFESIONALES",
       {| materialidad := [py "Contrato"; py "SLA"; py "Orden de Servicio";
                           py "Entregables"; py "Evidencia de prestación"];
          isr_deductible := true; iva_creditable := true |});
      (py "ARRENDAMIENTO",
       {| materialidad := [py "Contrato de arrendamiento"; py "Comprobante de pago";
                           py "Uso del bien"];
          isr_deductible := true; iva_creditable := true |});
      (py "PUBLICIDAD",
       {| materialidad := [py "Contrato"; py "Brief"; py "Pautas"; py "Reportes";
                           py "Evidencia"];
          isr_deductible := true; iva_creditable := true |});
      (py "GENÉRICO",
       {| materialidad := [py "Contrato"; py "Orden de compra"; py "Evidencia"];
          isr_deductible := false; iva_creditable := false |}) ].

(** ** XML documents as [xml.etree.ElementTree] presents them

    An element has a tag in Clark notation ([{uri}local]), a dictionary
    of attributes and its child elements in document order. *)
#[warnings="-register-all"] Inductive Element :=
| Elem (tag : str) (attrib : gmap str str) (children : list Element).

Definition tag (e : Element) : str := match e with Elem t _ _ => t end.
Definition attrib (e : Element) : gmap str str := match e with Elem _ a _ => a end.
Definition children (e : Element) : list Element := match e with Elem _ _ c => c end.

Definition CFDI_NS : str := py "http://www.sat.gob.mx/cfd/3".

(** [e.find("cfdi:Name", ns)]: the first direct child whose tag is
    [{CFDI_NS}Name], or [None]. *)
Definition clark (uri name : str) : str := py "{" ++ uri ++ py "}" ++ name.

Definition find_cfdi (name : str) (e : Element) : option Element :=
  List.find (fun c => bool_decide (tag c = clark CFDI_NS name)) (children e).

(** ** Records of the five collections *)

Record User := { password : str; role : str }.

Definition account_role (account : User) : str := role account.

Record EfosCheck := {
  rfc : option str;
  is_efos : bool;
  source : str;
  checked_at : str
}.

Record Risk := { score : Z; level : str; reasons : list str }.

Record Evidence := {
  ev_id : str;
  ev_cfdi_uuid : str;
  ev_filename : str;
  ev_hash : str;
  ev_uploaded_at : str
}.

Record Alert := {
  al_id : str;
  al_cfdi_uuid : str;
  al_level : str;
  al_reasons : list str;
  al_ts : str
}.

Record LogEntry := {
  log_id : str;
  log_ts : str;
  log_user : option str;
  log_action : str;
  log_detail : str
}.

Definition BAJO : str := py "BAJO".
Definition MEDIO : str := py "MEDIO".
Definition ALTO : str := py "ALTO".

Definition EFOS_REASON : str := py "Proveedor en lista EFOS".
Definition NO_EVIDENCE_REASON : str := py "Sin evidencias cargadas".
Definition GENERIC_REASON : str := py "Concepto genérico".

(** Exceptions the modelled code can raise, and the two ways a call
    ends. *)
Inductive exn := ParseError | AttributeError | ValueError | KeyError.

Inductive Outcome (A : Type) :=
| Ret (a : A)
| Raise (e : exn).
Arguments Ret {A} a.
Arguments Raise {A} e.

(** The Flask session: a dictionary whose only key is ["user"]. *)
Abbreviation Session := (gmap str str).

Definition USER_KEY : str := py "user".

Section Program.
Context {PB : PyBuiltins}.

(** *** Concept classifier ([Main.py], lines 122-130) *)
Definition classify_concept (concept : str) : str :=
  let c := upper unicode_upper concept in
  if str_in (py "SERV") c then SERVICIOS_PROFESIONALES
  else if str_in (py "ARREND") c then ARRENDAMIENTO
  else if str_in (py "PUBLI") c || str_in (py "MARKET") c then PUBLICIDAD
  else GENERICO.

(** The dictionary [parse_cfdi_xml] returns ([Main.py], lines 191-200);
    an attribute read with [.get] and no default is [None] when absent. *)
Record ParsedCfdi := {
  uuid : str;
  emisor_rfc : option str;
  receptor_rfc : option str;
  concept : str;
  subtotal : float;
  iva : float;
  total : float;
  fecha : option str
}.

(** The same dictionary once [upload_cfdi] has set its ["concept_type"]
    key (line 250). *)
Record Cfdi := { parsed : ParsedCfdi; concept_type : str }.

Record Memoria := {
  mem_base : float;
  mem_iva : float;
  mem_total : float;
  fundamento : str;
  documentos_requeridos : list str
}.

(** The record [upload_cfdi] assembles (lines 259-267). *)
Record CfdiRecord := {
  cfdi : Cfdi;
  taxonomy : TaxonomyEntry;
  efos : EfosCheck;
  memoria : Memoria;
  razon_negocio : str;
  riesgo : Risk;
  created_at : str
}.

(** [f"{x}"] of a value that may be [None]. *)
Definition fmt_opt (o : option str) : str :=
  match o with Some s => s | None => py "None" end.

(** [Main.py], lines 132-141. *)
Definition business_reason_art5 (c : Cfdi) : str :=
  py "La operación '" ++ concept (parsed c) ++
  py "' se realizó para la obtención de ingresos, " ++
  py "optimización de procesos y cumplimiento del objeto social. Existe sustancia económica " ++
  py "al contar con proveedor identificado (" ++ fmt_opt (emisor_rfc (parsed c)) ++
  py "), contraprestación " ++
  py "(" ++ float_repr (total (parsed c)) ++
  py "), y documentación de soporte. No es una operación artificiosa.".

(** [Main.py], lines 143-156. *)
Definition calc_memoria (c : Cfdi) (t : TaxonomyEntry) : Memoria :=
  let base := subtotal (parsed c) in
  let iva := iva (parsed c) in
  let total := total (parsed c) in
  {| mem_base := base;
     mem_iva := iva;
     mem_total := total;
     fundamento := py "LISR Art. 25, LIVA Art. 5, CFF Art. 5";
     documentos_requeridos := materialidad t |}.

(** *** Risk engine ([Main.py], lines 158-173) *)

(** Lines 170-172: the level read off the accumulated score. *)
Definition risk_level (risk : Z) : str :=
  if risk >=? 60 then ALTO
  else if risk >=? 30 then MEDIO
  else BAJO.

Definition risk_engine (c : Cfdi) (efos_check : EfosCheck) (evidences : list Evidence) : Risk :=
  let risk := 0 in
  let reasons := @nil str in
  let '(risk, reasons) :=
    if is_efos efos_check then (risk + 60, reasons ++ [EFOS_REASON])
    else (risk, reasons) in
  let '(risk, reasons) :=
    match evidences with
    | [] => (risk + 25, reasons ++ [NO_EVIDENCE_REASON])
    | _ :: _ => (risk, reasons)
    end in
  let '(risk, reasons) :=
    if bool_decide (concept_type c = GENERICO) then (risk + 15, reasons ++ [GENERIC_REASON])
    else (risk, reasons) in
  {| score := risk; level := risk_level risk; reasons := reasons |}.

(** *** The stores ([Main.py], lines 22-42)

    [CFDIS], [EVIDENCES], [LOGS] and [ALERTS] are module-level lists;
    [save_db] rewrites the JSON file of one of them.  [mem] is the
    lists in memory and [disk] what the four files hold.  [uuid.uuid4()]
    and [datetime.now()] read the outside world: successive calls return
    [uuid_src 0], [uuid_src 1], ... and [clock_src 0], [clock_src 1], ... *)
Record Stores := {
  CFDIS : list CfdiRecord;
  EVIDENCES : list Evidence;
  LOGS : list LogEntry;
  ALERTS : list Alert
}.

Record World := {
  USERS : gmap str User;
  mem : Stores;
  disk : Stores;
  uuid_src : nat -> str;
  uuid_next : nat;
  clock_src : nat -> str;
  clock_next : nat
}.

Definition set_mem (f : Stores -> Stores) (w : World) : World :=
  {| USERS := USERS w; mem := f (mem w); disk := disk w;
     uuid_src := uuid_src w; uuid_next := uuid_next w;
     clock_src := clock_src w; clock_next := clock_next w |}.

Definition set_disk (f : Stores -> Stores) (w : World) : World :=
  {| USERS := USERS w; mem := mem w; disk := f (disk w);
     uuid_src := uuid_src w; uuid_next := uuid_next w;
     clock_src := clock_src w; clock_next := clock_next w |}.

(** Computations that read and write the world and either return or
    raise.  What was written before a [raise] stays written. *)
Definition M (A : Type) : Type := World -> Outcome A * World.

#[global] Instance M_ret : MRet M := fun A a w => (Ret a, w).

#[global] Instance M_bind : MBind M := fun A B f m w =>
  match m w with
  | (Ret a, w') => f a w'
  | (Raise e, w') => (Raise e, w')
  end.

Definition raise {A : Type} (e : exn) : M A := fun w => (Raise e, w).

Definition uuid4 : M str := fun w =>
  (Ret (uuid_src w (uuid_next w)),
   {| USERS := USERS w; mem := mem w; disk := disk w;
      uuid_src := uuid_src w; uuid_next := S (uuid_next w);
      clock_src := clock_src w; clock_next := clock_next w |}).

Definition now_isoformat : M str := fun w =>
  (Ret (clock_src w (clock_next w)),
   {| USERS := USERS w; mem := mem w; disk := disk w;
      uuid_src := uuid_src w; uuid_next := uuid_next w;
      clock_src := clock_src w; clock_next := S (clock_next w) |}).

Definition read {A : Type} (f : World -> A) : M A := fun w => (Ret (f w), w).

Definition update (f : World -> World) : M unit := fun w => (Ret tt, f w).

Definition CFDIS_append (r : CfdiRecord) : M unit :=
  update (set_mem (fun s =>
    {| CFDIS := CFDIS s ++ [r]; EVIDENCES := EVIDENCES s; LOGS := LOGS s; ALERTS := ALERTS s |})).

Definition EVIDENCES_append (e : Evidence) : M unit :=
  update (set_mem (fun s =>
    {| CFDIS := CFDIS s; EVIDENCES := EVIDENCES s ++ [e]; LOGS := LOGS s; ALERTS := ALERTS s |})).

Definition LOGS_append (l : LogEntry) : M unit :=
  update (set_mem (fun s =>
    {| CFDIS := CFDIS s; EVIDENCES := EVIDENCES s; LOGS := LOGS s ++ [l]; ALERTS := ALERTS s |})).

Definition ALERTS_append (a : Alert) : M unit :=
  update (set_mem (fun s =>
    {| CFDIS := CFDIS s; EVIDENCES := EVIDENCES s; LOGS := LOGS s; ALERTS := ALERTS s ++ [a] |})).

(** [save_db(name, data)], lines 30-33.  Every call of the source pairs
    a file with its own list, so the file is named by the list. *)
Inductive DbFile := cfdis_json | evidences_json | logs_json | alerts_json.

Definition save_db (name : DbFile) : M unit := fun w =>
  let m := mem w in
  (Ret tt,
   set_disk (fun d =>
     match name with
     | cfdis_json =>
         {| CFDIS := CFDIS m; EVIDENCES := EVIDENCES d; LOGS := LOGS d; ALERTS := ALERTS d |}
     | evidences_json =>
         {| CFDIS := CFDIS d; EVIDENCES := EVIDENCES m; LOGS := LOGS d; ALERTS := ALERTS d |}
     | logs_json =>
         {| CFDIS := CFDIS d; EVIDENCES := EVIDENCES d; LOGS := LOGS m; ALERTS := ALERTS d |}
     | alerts_json =>
         {| CFDIS := CFDIS d; EVIDENCES := EVIDENCES d; LOGS := LOGS d; ALERTS := ALERTS m |}
     end) w).

(** [log(action, detail)], lines 47-55. *)
Definition log (session : Session) (action detail : str) : M unit :=
  id ← uuid4;
  ts ← now_isoformat;
  _ ← LOGS_append {| log_id := id; log_ts := ts; log_user := session !! USER_KEY;
                     log_action := action; log_detail := detail |};
  save_db logs_json.

(** *** EFOS check ([Main.py], lines 79-91) *)
Definition demo_efos : gset str := {[ py "AAA010101AAA"; py "EFX990909EFX" ]}.

Definition check_rfc_efos (r : option str) : M EfosCheck :=
  let listed := match r with
                | Some x => bool_decide (x ∈ demo_efos)
                | None => false
                end in
  ts ← now_isoformat;
  mret {| rfc := r; is_efos := listed; source := py "SAT/DOF (demo)"; checked_at := ts |}.

(** *** CFDI parser ([Main.py], lines 178-201)

    An uploaded file is known by its name, by what [ET.parse] makes of
    its bytes ([None] when they are not well-formed XML, which raises
    [ParseError]) and by the SHA-256 digest of its bytes. *)
Record Upload := {
  filename : str;
  xml : option Element;
  sha256_hex : str
}.

(** [x.attrib] and [x.find] on the result of a [find] that may be
    [None]: an [AttributeError] when it is. *)
Definition deref (x : option Element) : M Element :=
  match x with
  | Some e => mret e
  | None => raise AttributeError
  end.

(** [float(root.attrib.get(name, 0))]. *)
Definition float_attr (root : Element) (name : str) : M float :=
  match attrib root !! name with
  | Some s =>
      match float_of_str s with
      | Some x => mret x
      | None => raise ValueError
      end
  | None => mret (float_of_int 0)
  end.

Definition parse_cfdi_xml (f : Upload) : M ParsedCfdi :=
  match xml f with
  | None => raise ParseError
  | Some root =>
      let emisor := find_cfdi (py "Emisor") root in
      let receptor := find_cfdi (py "Receptor") root in
      let conceptos := find_cfdi (py "Conceptos") root in
      conceptos_el ← deref conceptos;
      let concepto := find_cfdi (py "Concepto") conceptos_el in
      subtotal ← float_attr root (py "SubTotal");
      total ← float_attr root (py "Total");
      let iva := float_sub total subtotal in
      id ← uuid4;
      emisor_el ← deref emisor;
      receptor_el ← deref receptor;
      concepto_el ← deref concepto;
      mret {| uuid := id;
              emisor_rfc := attrib emisor_el !! py "Rfc";
              receptor_rfc := attrib receptor_el !! py "Rfc";
              concept := default (py "") (attrib concepto_el !! py "Descripcion");
              subtotal := subtotal;
              iva := round_ndigits iva 2;
              total := total;
              fecha := attrib root !! py "Fecha" |}
  end.

(** *** Responses *)
Inductive CsvVal :=
| VStr (s : str)
| VNone
| VFloat (x : float)
| VBool (b : bool).

Inductive FileContent :=
| CsvFile (rows : list (list CsvVal))
| JsonFile (cfdis : list CfdiRecord) (alerts : list Alert) (logs : list LogEntry).

Inductive Response :=
| Redirect (endpoint : str)
| Forbidden
| RenderLogin
| RenderDash (role : str) (cfdis : list CfdiRecord) (alerts : list Alert)
| SendFile (path : str) (content : FileContent).

(** *** CFDI upload ([Main.py], lines 243-282)

    [request.files["file"]] is the first statement of the handler: a
    request without the field is answered by Flask before anything is
    read or written, so the handlers take the field as given.  The bytes
    saved under [UPLOAD_DIR] are not one of the collections and are left
    out of the world. *)
Definition getitem_TAXONOMY (k : str) : M TaxonomyEntry :=
  match TAXONOMY !! k with
  | Some t => mret t
  | None => raise KeyError
  end.

Definition upload_cfdi (f : Upload) (session : Session) : M Response :=
  data ← parse_cfdi_xml f;
  let concept_type := classify_concept (concept data) in
  let data := {| parsed := data; concept_type := concept_type |} in
  taxonomy ← getitem_TAXONOMY concept_type;
  efos ← check_rfc_efos (emisor_rfc (parsed data));
  let memo := calc_memoria data taxonomy in
  let reason := business_reason_art5 data in
  all_evidences ← read (fun w => EVIDENCES (mem w));
  let evidences := filter (fun e => ev_cfdi_uuid e = uuid (parsed data)) all_evidences in
  let risk := risk_engine data efos evidences in
  created ← now_isoformat;
  let record := {| cfdi := data; taxonomy := taxonomy; efos := efos; memoria := memo;
                   razon_negocio := reason; riesgo := risk; created_at := created |} in
  _ ← CFDIS_append record;
  _ ← save_db cfdis_json;
  _ ← (if bool_decide (level risk ≠ BAJO) then
         id ← uuid4;
         ts ← now_isoformat;
         _ ← ALERTS_append {| al_id := id; al_cfdi_uuid := uuid (parsed data);
                              al_level := level risk; al_reasons := reasons risk;
                              al_ts := ts |};
         save_db alerts_json
       else mret tt);
  _ ← log session (py "UPLOAD_CFDI") (filename f);
  mret (Redirect (py "dashboard")).

(** *** Evidence upload ([Main.py], lines 289-304) *)
Definition upload_evidence (cfdi_uuid : str) (f : Upload) (session : Session) : M Response :=
  id ← uuid4;
  ts ← now_isoformat;
  _ ← EVIDENCES_append {| ev_id := id; ev_cfdi_uuid := cfdi_uuid; ev_filename := filename f;
                          ev_hash := sha256_hex f; ev_uploaded_at := ts |};
  _ ← save_db evidences_json;
  _ ← log session (py "UPLOAD_EVIDENCE") (filename f);
  mret (Redirect (py "dashboard")).

(** *** Exports ([Main.py], lines 311-360)

    A row is a dictionary with its keys in insertion order.  A CSV file
    is the list of the rows written to it, each a list of cells; the
    file to which nothing was written is [CsvFile []]. *)
Abbreviation RowDict := (list (str * CsvVal)).

Definition row_get (k : str) (row : RowDict) : option CsvVal :=
  snd <$> List.find (fun kv => bool_decide (fst kv = k)) row.

(** [csv.DictWriter(f, fieldnames)]: [writeheader] writes the field
    names; [writerows] writes, for each dictionary, its values in the
    order of the field names (the empty string for a missing key) and
    raises [ValueError] for a dictionary with a key that is no field. *)
Definition header_row (fieldnames : list str) : list CsvVal := map VStr fieldnames.

Definition dict_to_list (fieldnames : list str) (row : RowDict) : option (list CsvVal) :=
  if forallb (fun kv => bool_decide (fst kv ∈ fieldnames)) row
  then Some (map (fun k => default (VStr (py "")) (row_get k row)) fieldnames)
  else None.

Fixpoint writerows (fieldnames : list str) (out : list RowDict) : option (list (list CsvVal)) :=
  match out with
  | [] => Some []
  | row :: rest =>
      match dict_to_list fieldnames row with
      | None => None
      | Some cells =>
          match writerows fieldnames rest with
          | None => None
          | Some more => Some (cells :: more)
          end
      end
  end.

(** Lines 323-327 and 345-349. *)
Definition write_csv (out : list RowDict) : M FileContent :=
  let fieldnames := match out with
                    | first :: _ => map fst first
                    | [] => []
                    end in
  match out with
  | [] => mret (CsvFile [])
  | _ :: _ =>
      match writerows fieldnames out with
      | Some rows => mret (CsvFile (header_row fieldnames :: rows))
      | None => raise ValueError
      end
  end.

Definition opt_val (o : option str) : CsvVal :=
  match o with Some s => VStr s | None => VNone end.

Definition isr_row (c : CfdiRecord) : RowDict :=
  [ (py "uuid", VStr (uuid (parsed (cfdi c))));
    (py "rfc_emisor", opt_val (emisor_rfc (parsed (cfdi c))));
    (py "concepto", VStr (concept (parsed (cfdi c))));
    (py "base", VFloat (mem_base (memoria c)));
    (py "deducible", VBool true) ].

Definition iva_row (c : CfdiRecord) : RowDict :=
  [ (py "uuid", VStr (uuid (parsed (cfdi c))));
    (py "rfc_emisor", opt_val (emisor_rfc (parsed (cfdi c))));
    (py "concepto", VStr (concept (parsed (cfdi c))));
    (py "iva", VFloat (mem_iva (memoria c)));
    (py "acreditable", VBool true) ].

Definition export_isr (session : Session) : M Response :=
  cfdis ← read (fun w => CFDIS (mem w));
  let out := map isr_row (List.filter (fun c => isr_deductible (taxonomy c)) cfdis) in
  content ← write_csv out;
  _ ← log session (py "EXPORT_ISR") (py "");
  mret (SendFile (py "data/cedula_isr.csv") content).

Definition export_iva (session : Session) : M Response :=
  cfdis ← read (fun w => CFDIS (mem w));
  let out := map iva_row (List.filter (fun c => iva_creditable (taxonomy c)) cfdis) in
  content ← write_csv out;
  _ ← log session (py "EXPORT_IVA") (py "");
  mret (SendFile (py "data/cedula_iva.csv") content).

Definition export_json (session : Session) : M Response :=
  st ← read mem;
  _ ← log session (py "EXPORT_JSON") (py "");
  mret (SendFile (py "data/arkanum_export.json")
                 (JsonFile (CFDIS st) (ALERTS st) (LOGS st))).

(** *** Dashboard ([Main.py], lines 234-236) *)
Definition getitem_USERS (k : str) : M User :=
  users ← read USERS;
  match users !! k with
  | Some u => mret u
  | None => raise KeyError
  end.

Definition getitem_session (session : Session) (k : str) : M str :=
  match session !! k with
  | Some v => mret v
  | None => raise KeyError
  end.

Definition dashboard (session : Session) : M Response :=
  u ← getitem_session session USER_KEY;
  account ← getitem_USERS u;
  st ← read mem;
  mret (RenderDash (role account) (CFDIS st) (ALERTS st)).

(** *** Access wrapper ([Main.py], lines 64-74)

    [role] is the decorator's argument; [if role and ...] tests it for
    truth first, and [None] and the empty string are false. *)
Definition truthy (role : option str) : bool :=
  match role with
  | Some (_ :: _) => true
  | _ => false
  end.

Definition login_required (role : option str) (fn : Session -> M Response)
    (session : Session) : M Response :=
  match session !! USER_KEY with
  | None => mret (Redirect (py "login"))
  | Some u =>
      if truthy role then
        account ← getitem_USERS u;
        if bool_decide (Some (account_role account) ≠ role) then mret Forbidden
        else fn session
      else fn session
  end.

(** *** Authentication routes ([Main.py], lines 206-227) *)
Definition home (session : Session) : M Response :=
  match session !! USER_KEY with
  | Some _ => mret (Redirect (py "dashboard"))
  | None => mret (Redirect (py "login"))
  end.

Definition login_post (u p : str) (session : Session) : M (Response * Session) :=
  users ← read USERS;
  match users !! u with
  | Some account =>
      if bool_decide (password account = p) then
        let session := <[USER_KEY := u]> session in
        _ ← log session (py "LOGIN") (py "");
        mret (Redirect (py "dashboard"), session)
      else mret (RenderLogin, session)
  | None => mret (RenderLogin, session)
  end.

Definition logout (session : Session) : M (Response * Session) :=
  _ ← log session (py "LOGOUT") (py "");
  mret (Redirect (py "login"), (∅ : Session)).

(** *** The routes as decorated in the source

    Each of the six guarded routes is declared under [@login_required()],
    that is with [role=None] (lines 233, 242, 288, 310, 332, 354). *)
Inductive Request :=
| GET_home
| GET_login
| POST_login (email password : str)
| GET_logout
| GET_dashboard
| POST_upload_cfdi (file : Upload)
| POST_upload_evidence (cfdi_uuid : str) (file : Upload)
| GET_export_isr
| GET_export_iva
| GET_export_json.

Definition keep_session (session : Session) (m : M Response) : M (Response * Session) :=
  r ← m; mret (r, session).

Definition app (req : Request) (session : Session) : M (Response * Session) :=
  match req with
  | GET_home => keep_session session (home session)
  | GET_login => mret (RenderLogin, session)
  | POST_login u p => login_post u p session
  | GET_logout => logout session
  | GET_dashboard => keep_session session (login_required None dashboard session)
  | POST_upload_cfdi f => keep_session session (login_required None (upload_cfdi f) session)
  | POST_upload_evidence id f =>
      keep_session session (login_required None (upload_evidence id f) session)
  | GET_export_isr => keep_session session (login_required None export_isr session)
  | GET_export_iva => keep_session session (login_required None export_iva session)
  | GET_export_json => keep_session session (login_required None export_json session)
  end.

(** The handler a guarded route wraps, and the guarded routes. *)
Definition guarded_body (req : Request) : option (Session -> M Response) :=
  match req with
  | GET_dashboard => Some dashboard
  | POST_upload_cfdi f => Some (upload_cfdi f)
  | POST_upload_evidence id f => Some (upload_evidence id f)
  | GET_export_isr => Some export_isr
  | GET_export_iva => Some export_iva
  | GET_export_json => Some export_json
  | _ => None
  end.

(** *** Start-up state ([Main.py], lines 35-42): the defaults that
    [load_db] writes when the JSON files do not exist yet. *)
Definition default_users : gmap str User :=
  list_to_map
    [ (py "director@arkanum", {| password := py "1234"; role := py "DIRECTOR" |});
      (py "contador@arkanum", {| password := py "1234"; role := py "CONTADOR" |}) ].

Definition empty_stores : Stores :=
  {| CFDIS := []; EVIDENCES := []; LOGS := []; ALERTS := [] |}.

Definition initial_world (uuids clock : nat -> str) : World :=
  {| USERS := default_users; mem := empty_stores; disk := empty_stores;
     uuid_src := uuids; uuid_next := 0; clock_src := clock; clock_next := 0 |}.

(** One request served to completion: the world it leaves behind. *)
Definition serve (req : Request) (session : Session) (w : World) : World :=
  snd (app req session w).

(** Worlds the program can be in: the start-up state and what any
    request, under any session, makes of a world it can be in. *)
Inductive reachable : World -> Prop :=
| reachable_init uuids clock : reachable (initial_world uuids clock)
| reachable_serve req session w : reachable w -> reachable (serve req session w).

End Program.

(** ** Vocabulary of the properties *)

Section Vocabulary.
Context {PB : PyBuiltins}.

(** The three triggers of the risk engine and the weight of a rule. *)
Definition weight (fires : bool) (w : Z) : Z := if fires then w else 0.

Definition no_evidence (evidences : list Evidence) : bool :=
  match evidences with [] => true | _ :: _ => false end.

Definition is_generic (c : Cfdi) : bool := bool_decide (concept_type c = GENERICO).

(** An attribute that is present with text [float] rejects. *)
Definition non_numeric (root : Element) (name : str) : Prop :=
  exists s, attrib root !! name = Some s /\ float_of_str s = None.


(** The four collections, in memory and on disk, are the same in two
    worlds. *)
Definition same_collections (w w' : World) : Prop :=
  mem w' = mem w /\ disk w' = disk w.

(** The invoice and alert lists, in memory and on disk, are the same in
    two worlds. *)
Definition keeps_invoices (w w' : World) : Prop :=
  CFDIS (mem w') = CFDIS (mem w) /\ ALERTS (mem w') = ALERTS (mem w)
  /\ CFDIS (disk w') = CFDIS (disk w) /\ ALERTS (disk w') = ALERTS (disk w).

(** The identifier the next call of [uuid.uuid4()] returns. *)
Definition next_uuid (w : World) : str := uuid_src w (uuid_next w).

(** No evidence record in the store names [id] as its invoice. *)
Definition fresh_for (id : str) (w : World) : Prop :=
  Forall (fun e => ev_cfdi_uuid e <> id) (EVIDENCES (mem w)).


(** [w'] continues [w]: the accounts and the two outside sources are
    the same, the sources have only moved forward, and each list in
    memory has [w]'s list as a prefix. *)
Definition extends (w w' : World) : Prop :=
  USERS w' = USERS w
  /\ uuid_src w' = uuid_src w
  /\ clock_src w' = clock_src w
  /\ (uuid_next w <= uuid_next w')%nat
  /\ (clock_next w <= clock_next w')%nat
  /\ CFDIS (mem w) `prefix_of` CFDIS (mem w')
  /\ EVIDENCES (mem w) `prefix_of` EVIDENCES (mem w')
  /\ LOGS (mem w) `prefix_of` LOGS (mem w')
  /\ ALERTS (mem w) `prefix_of` ALERTS (mem w').

(** A computation that only ever continues the world it is run in. *)
Definition respects {A : Type} (m : M A) : Prop :=
  forall w, extends w (snd (m w)).

(** A sequence of requests, each with the session it comes with, served
    one after the other. *)
Definition serve_all (reqs : list (Request * Session)) (w : World) : World :=
  fold_left (fun w rs => serve (fst rs) (snd rs) w) reqs w.

(** The four JSON files hold what the lists in memory hold. *)
Definition synced (w : World) : Prop := disk w = mem w.

(** The issuer identifiers of the demo list of [check_rfc_efos]. *)
Definition listed_rfc (r : option str) : Prop :=
  r = Some (py "AAA010101AAA") \/ r = Some (py "EFX990909EFX").

Definition invoice_id (r : CfdiRecord) : str := uuid (parsed (cfdi r)).

(** What a stored invoice owes to the functions that built it. *)
Definition consistent (r : CfdiRecord) : Prop :=
  iva (parsed (cfdi r))
    = round_ndigits (float_sub (total (parsed (cfdi r))) (subtotal (parsed (cfdi r)))) 2
  /\ concept_type (cfdi r) = classify_concept (concept (parsed (cfdi r)))
  /\ TAXONOMY !! concept_type (cfdi r) = Some (taxonomy r)
  /\ memoria r = calc_memoria (cfdi r) (taxonomy r)
  /\ razon_negocio r = business_reason_art5 (cfdi r)
  /\ rfc (efos r) = emisor_rfc (parsed (cfdi r))
  /\ (is_efos (efos r) = true <-> listed_rfc (emisor_rfc (parsed (cfdi r))))
  /\ level (riesgo r) = risk_level (score (riesgo r)).

(** The stored risk is the risk engine's answer on some evidence list. *)
Definition scored (r : CfdiRecord) : Prop :=
  exists evidences, riesgo r = risk_engine (cfdi r) (efos r) evidences.

(** The invoice identifiers of a world were drawn from its identifier
    source at the positions [idxs], in increasing order. *)
Definition drawn_at (idxs : list nat) (w : World) : Prop :=
  map invoice_id (CFDIS (mem w)) = map (uuid_src w) idxs
  /\ StronglySorted lt idxs
  /\ Forall (fun i => (i < uuid_next w)%nat) idxs.

(** What an alert and an invoice have in common. *)
Definition alert_summary (a : Alert) : str * str * list str :=
  (al_cfdi_uuid a, al_level a, al_reasons a).

Definition invoice_summary (r : CfdiRecord) : str * str * list str :=
  (invoice_id r, level (riesgo r), reasons (riesgo r)).

(** The columns of the two ledgers and the cells of an invoice's row. *)
Definition isr_fieldnames : list str :=
  [py "uuid"; py "rfc_emisor"; py "concepto"; py "base"; py "deducible"].

Definition iva_fieldnames : list str :=
  [py "uuid"; py "rfc_emisor"; py "concepto"; py "iva"; py "acreditable"].

Definition isr_cells (c : CfdiRecord) : list CsvVal :=
  [ VStr (invoice_id c); opt_val (emisor_rfc (parsed (cfdi c)));
    VStr (concept (parsed (cfdi c))); VFloat (mem_base (memoria c)); VBool true ].

Definition iva_cells (c : CfdiRecord) : list CsvVal :=
  [ VStr (invoice_id c); opt_val (emisor_rfc (parsed (cfdi c)));
    VStr (concept (parsed (cfdi c))); VFloat (mem_iva (memoria c)); VBool true ].

(** A CSV file with a header row when it has rows, and empty when not. *)
Definition csv_of (fieldnames : list str) (rows : list (list CsvVal)) : FileContent :=
  match rows with
  | [] => CsvFile []
  | _ :: _ => CsvFile (map VStr fieldnames :: rows)
  end.

End Vocabulary.

(** ** An implementation of the built-ins to run the model on

    Floats are kept as the expression that computes them, so a run shows
    which conversions, subtraction and rounding the program performed
    without committing to binary arithmetic.  [float] accepts plain
    decimal numerals here.  The upper-case table is that of Unicode on
    Latin-1; code points beyond it are left as they are. *)
Inductive SymFloat :=
| FStr (s : str)
| FInt (z : Z)
| FSub (a b : SymFloat)
| FRound (a : SymFloat) (ndigits : Z).

Definition is_digit (c : N) : bool := (48 <=? c)%N && (c <=? 57)%N.

Definition strip_sign (s : str) : str :=
  match s with
  | c :: rest => if (c =? 43)%N || (c =? 45)%N then rest else s
  | [] => []
  end.

Definition is_decimal (s : str) : bool :=
  let body := strip_sign s in
  forallb (fun c => is_digit c || (c =? 46)%N) body
  && existsb is_digit body
  && (length (List.filter (fun c => (c =? 46)%N) body) <=? 1)%nat.

Definition sym_of_str (s : str) : option SymFloat :=
  if is_decimal s then Some (FStr s) else None.

Fixpoint sym_repr (x : SymFloat) : str :=
  match x with
  | FStr s => py "float('" ++ s ++ py "')"
  | FInt z => py "float(" ++ py (pretty z) ++ py ")"
  | FSub a b => py "(" ++ sym_repr a ++ py " - " ++ sym_repr b ++ py ")"
  | FRound a n => py "round(" ++ sym_repr a ++ py ", " ++ py (pretty n) ++ py ")"
  end.

Definition latin1_upper (c : N) : str :=
  if (c =? 181)%N then [924%N]
  else if (c =? 223)%N then [83%N; 83%N]
  else if (c =? 255)%N then [376%N]
  else if (224 <=? c)%N && (c <=? 254)%N && negb (c =? 247)%N then [(c - 32)%N]
  else [c].

#[global] Instance symbolic_builtins : PyBuiltins := {|
  unicode_upper := latin1_upper;
  float := SymFloat;
  float_of_str := sym_of_str;
  float_of_int := FInt;
  float_sub := FSub;
  round_ndigits := FRound;
  float_repr := sym_repr
|}.

Definition sample_uuids (n : nat) : str := py "uuid-" ++ py (pretty n).
Definition sample_clock (n : nat) : str := py "2024-01-01T00:00:0" ++ py (pretty n).

(** ** Sample inputs

    A document with every field the parser reads; the same without its
    [SubTotal] attribute and without the issuer's [Rfc]; and one without
    the [Emisor] element. *)
Definition el (name : string) (attrs : list (string * string)) (kids : list Element) : Element :=
  Elem (clark CFDI_NS (py name))
       (list_to_map (map (fun kv => (py (fst kv), py (snd kv))) attrs))
       kids.

Definition sample_doc : Element :=
  el "Comprobante" [("SubTotal", "100.00"); ("Total", "116.00"); ("Fecha", "2024-01-15T10:00:00")]
    [ el "Emisor" [("Rfc", "AAA010101AAA")] [];
      el "Receptor" [("Rfc", "XAXX010101000")] [];
      el "Conceptos" [] [ el "Concepto" [("Descripcion", "Servicios de consultoría")] [] ] ].

Definition doc_without_subtotal : Element :=
  el "Comprobante" [("Total", "116.00")]
    [ el "Emisor" [] [];
      el "Receptor" [("Rfc", "XAXX010101000")] [];
      el "Conceptos" [] [ el "Concepto" [("Descripcion", "Renta de oficina")] [] ] ].


Definition as_upload (name : string) (doc : Element) : Upload :=
  {| filename := py name; xml := Some doc; sha256_hex := py "" |}.

Definition director_session : Session := {[ USER_KEY := py "director@arkanum" ]}.
Definition contador_session : Session := {[ USER_KEY := py "contador@arkanum" ]}.

Definition sample_world : World := initial_world sample_uuids sample_clock.

(** The world after one evidence upload for an unrelated invoice
    identifier, and after the sample invoice is then uploaded. *)
Definition world_with_evidence : World :=
  serve (POST_upload_evidence (py "another-invoice") (as_upload "contrato.pdf" sample_doc))
        contador_session sample_world.

Definition world_with_invoice : World :=
  serve (POST_upload_cfdi (as_upload "factura.xml" sample_doc)) director_session
        world_with_evidence.

(** What the parser returns on the first two sample documents. *)
Definition sample_parsed : ParsedCfdi :=
  {| uuid := sample_uuids 0;
     emisor_rfc := Some (py "AAA010101AAA");
     receptor_rfc := Some (py "XAXX010101000");
     concept := py "Servicios de consultoría";
     subtotal := FStr (py "100.00");
     iva := FRound (FSub (FStr (py "116.00")) (FStr (py "100.00"))) 2;
     total := FStr (py "116.00");
     fecha := Some (py "2024-01-15T10:00:00") |}.


Definition not_listed : EfosCheck :=
  {| rfc := Some (py "XAXX010101000"); is_efos := false;
     source := py "SAT/DOF (demo)"; checked_at := sample_clock 0 |}.

Definition listed : EfosCheck :=
  {| rfc := Some (py "AAA010101AAA"); is_efos := true;
     source := py "SAT/DOF (demo)"; checked_at := sample_clock 0 |}.

Definition one_evidence : list Evidence :=
  [ {| ev_id := sample_uuids 1; ev_cfdi_uuid := sample_uuids 0;
       ev_filename := py "contrato.pdf"; ev_hash := py "";
       ev_uploaded_at := sample_clock 1 |} ].

(** An identifier source that never repeats, and the world after two
    uploads of the sample invoice under it. *)
Definition numbered_uuids (n : nat) : str := [N.of_nat n].

Definition world_with_two_invoices : World :=
  serve (POST_upload_cfdi (as_upload "factura.xml" sample_doc)) director_session
    (serve (POST_upload_cfdi (as_upload "factura.xml" sample_doc)) director_session
       (initial_world numbered_uuids sample_clock)).

(** The world after the document without [SubTotal] is uploaded. *)
Definition world_with_generic : World :=
  serve (POST_upload_cfdi (as_upload "renta.xml" doc_without_subtotal)) director_session
        sample_world.

(** ** Proof steps used throughout *)

(** Membership in a list written out. *)
Ltac in_list :=
  solve [repeat first [apply list_elem_of_here | apply list_elem_of_further]].

(** Unfolding of the primitive actions of a handler. *)
Ltac run_handler :=
  unfold mbind, M_bind, mret, M_ret, read, update, log, uuid4, now_isoformat, raise,
    LOGS_append, EVIDENCES_append, save_db, set_mem, set_disk, keeps_invoices;
  simpl.

(** * Properties *)

(** ** Text *)

Lemma startswith_spec (k s : str) :
  startswith k s = true <-> exists post, s = k ++ post.
Proof.
  revert s. induction k as [|a k IH]; intros s; simpl.
  - split; [intros _; exists s; reflexivity | reflexivity].
  - destruct s as [|b s].
    + split; [discriminate | intros [post H]; discriminate].
    + rewrite andb_true_iff, N.eqb_eq, IH. split.
      * intros [-> [post ->]]. exists post. reflexivity.
      * intros [post H]. injection H as -> ->. eauto.
Qed.

Lemma str_in_spec (k s : str) :
  str_in k s = true <-> exists pre post, s = pre ++ k ++ post.
Proof.
  induction s as [|b s IH]; simpl.
  - rewrite orb_false_r, startswith_spec. split.
    + intros [post H]. exists [], post. exact H.
    + intros [pre [post H]]. destruct pre; simpl in H.
      * eauto.
      * discriminate.
  - rewrite orb_true_iff, startswith_spec, IH. split.
    + intros [[post H] | [pre [post H]]].
      * exists [], post. exact H.
      * exists (b :: pre), post. simpl. f_equal. exact H.
    + intros [pre [post H]]. destruct pre as [|c pre]; simpl in H.
      * left. eauto.
      * right. injection H as _ H. eauto.
Qed.

Lemma upper_app (u : N -> str) (s t : str) : upper u (s ++ t) = upper u s ++ upper u t.
Proof. unfold upper. rewrite map_app, concat_app. reflexivity. Qed.

Lemma upper_cp_lower (u : N -> str) (a : N) :
  is_ascii_lower a = true -> upper_cp u a = [(a - 32)%N] /\ upper_cp u (a - 32) = [(a - 32)%N].
Proof.
  unfold upper_cp, is_ascii_lower. intros Ha. rewrite Ha.
  apply andb_true_iff in Ha as [H1 H2].
  apply N.leb_le in H1, H2.
  destruct (N.ltb_spec a 128); [|lia].
  destruct (N.ltb_spec (a - 32) 128); [|lia].
  destruct (N.leb_spec 97 (a - 32)); simpl; [lia | split; reflexivity].
Qed.

Lemma upper_cp_same_letter (u : N -> str) (a b : N) :
  same_letter a b -> upper_cp u a = upper_cp u b.
Proof.
  intros [-> | [[Ha ->] | [Hb ->]]]; [reflexivity | |].
  - destruct (upper_cp_lower u a Ha) as [-> ->]. reflexivity.
  - destruct (upper_cp_lower u b Hb) as [-> ->]. reflexivity.
Qed.

Lemma upper_same_letter (u : N -> str) (s t : str) :
  Forall2 same_letter s t -> upper u s = upper u t.
Proof.
  induction 1 as [|a b s t Hab _ IH]; [reflexivity|].
  unfold upper in *. simpl. rewrite IH, (upper_cp_same_letter u a b Hab). reflexivity.
Qed.

Lemma upper_fixes_caps (u : N -> str) (k : str) : ascii_caps k -> upper u k = k.
Proof.
  induction 1 as [|c k [Hc Hl] _ IH]; [reflexivity|].
  unfold upper in *. simpl. rewrite IH. unfold upper_cp.
  apply N.ltb_lt in Hc. rewrite Hc, Hl. reflexivity.
Qed.

Lemma upper_spells (u : N -> str) (run k : str) :
  ascii_caps k -> Forall2 same_letter run k -> upper u run = k.
Proof.
  intros Hk H. rewrite (upper_same_letter u run k H). apply upper_fixes_caps, Hk.
Qed.

Lemma occurs_app_r (k s t : str) : occurs k s -> occurs k (s ++ t).
Proof.
  intros [pre [post ->]]. exists pre, (post ++ t).
  rewrite <- !app_assoc. reflexivity.
Qed.

Lemma occurs_app_l (k s t : str) : occurs k t -> occurs k (s ++ t).
Proof.
  intros [pre [post ->]]. exists (s ++ pre), post.
  rewrite <- !app_assoc. reflexivity.
Qed.

Lemma occurs_trans (k m s : str) : occurs k m -> occurs m s -> occurs k s.
Proof.
  intros Hk [pre [post ->]]. apply occurs_app_l, occurs_app_r, Hk.
Qed.

Lemma str_in_occurs (k s : str) : str_in k s = true <-> occurs k s.
Proof. apply str_in_spec. Qed.

Lemma str_in_not_occurs (k s : str) : str_in k s = false <-> ~ occurs k s.
Proof.
  rewrite <- str_in_occurs. destruct (str_in k s); split; intros H;
    solve [congruence | exfalso; apply H; reflexivity].
Qed.

(** ** Concept classifier *)

Section ClassifierProperties.
Context {PB : PyBuiltins}.

Lemma classify_services (s : str) :
  occurs (py "SERV") (upper unicode_upper s) -> classify_concept s = SERVICIOS_PROFESIONALES.
Proof.
  intros H. apply str_in_occurs in H. unfold classify_concept.
  cbv zeta. rewrite H. reflexivity.
Qed.

(** C2. [classify_concept] returns, for every text, one of the four
    category keys (which are pairwise distinct); equal texts get equal
    keys; texts that differ only in the case of ASCII letters get equal
    keys; the keywords are looked for as contiguous runs of the
    upper-cased text in the order SERV, ARREND, then PUBLI or MARKET,
    with GENÉRICO when none occurs; a run of the text itself that spells
    SERV in any letter case decides for SERVICIOS PROFESIONALES; and a
    text holding both SERVICIO and PUBLICIDAD resolves to SERVICIOS
    PROFESIONALES. *)
Theorem classify_concept_total_ordered :
  (forall s, classify_concept s ∈
     [SERVICIOS_PROFESIONALES; ARRENDAMIENTO; PUBLICIDAD; GENERICO])
  /\ NoDup [SERVICIOS_PROFESIONALES; ARRENDAMIENTO; PUBLICIDAD; GENERICO]
  /\ (forall s1 s2, s1 = s2 -> classify_concept s1 = classify_concept s2)
  /\ (forall s1 s2, Forall2 same_letter s1 s2 -> classify_concept s1 = classify_concept s2)
  /\ (forall s, let c := upper unicode_upper s in
        (occurs (py "SERV") c -> classify_concept s = SERVICIOS_PROFESIONALES)
        /\ (~ occurs (py "SERV") c -> occurs (py "ARREND") c ->
            classify_concept s = ARRENDAMIENTO)
        /\ (~ occurs (py "SERV") c -> ~ occurs (py "ARREND") c ->
            occurs (py "PUBLI") c \/ occurs (py "MARKET") c ->
            classify_concept s = PUBLICIDAD)
        /\ (~ occurs (py "SERV") c -> ~ occurs (py "ARREND") c ->
            ~ occurs (py "PUBLI") c -> ~ occurs (py "MARKET") c ->
            classify_concept s = GENERICO))
  /\ (forall s run, occurs run s -> Forall2 same_letter run (py "SERV") ->
        classify_concept s = SERVICIOS_PROFESIONALES)
  /\ (forall s, occurs (py "SERVICIO") (upper unicode_upper s) ->
        occurs (py "PUBLICIDAD") (upper unicode_upper s) ->
        classify_concept s = SERVICIOS_PROFESIONALES).
Proof.
  split; [|split; [|split; [|split; [|split; [|split]]]]].
  - intros s. unfold classify_concept. cbv zeta.
    destruct (str_in (py "SERV") _); [in_list|].
    destruct (str_in (py "ARREND") _); [in_list|].
    destruct (str_in (py "PUBLI") _ || str_in (py "MARKET") _); in_list.
  - apply (bool_decide_unpack _). vm_compute. exact I.
  - intros s1 s2 ->. reflexivity.
  - intros s1 s2 H. unfold classify_concept.
    rewrite (upper_same_letter unicode_upper s1 s2 H). reflexivity.
  - intros s c. subst c. repeat split.
    + apply classify_services.
    + intros H1 H2. apply str_in_not_occurs in H1. apply str_in_occurs in H2.
      unfold classify_concept. cbv zeta. rewrite H1, H2. reflexivity.
    + intros H1 H2 H3. apply str_in_not_occurs in H1, H2.
      unfold classify_concept. cbv zeta. rewrite H1, H2.
      destruct H3 as [H3 | H3]; apply str_in_occurs in H3; rewrite H3;
        [|rewrite orb_true_r]; reflexivity.
    + intros H1 H2 H3 H4. apply str_in_not_occurs in H1, H2, H3, H4.
      unfold classify_concept. cbv zeta. rewrite H1, H2, H3, H4. reflexivity.
  - intros s run [pre [post ->]] Hrun. apply classify_services.
    rewrite !upper_app.
    rewrite (upper_spells unicode_upper run (py "SERV")); [| |exact Hrun].
    + exists (upper unicode_upper pre), (upper unicode_upper post). reflexivity.
    + repeat constructor.
  - intros s H _. apply classify_services.
    apply (occurs_trans _ (py "SERVICIO")); [|exact H].
    exists [], (py "ICIO"). reflexivity.
Qed.

End ClassifierProperties.

(** ** Risk engine *)

Section RiskProperties.
Context {PB : PyBuiltins}.

Lemma levels_distinct : NoDup [BAJO; MEDIO; ALTO].
Proof. apply (bool_decide_unpack _). vm_compute. exact I. Qed.

Lemma risk_level_spec (s : Z) :
  (60 <= s -> risk_level s = ALTO)
  /\ (30 <= s < 60 -> risk_level s = MEDIO)
  /\ (s < 30 -> risk_level s = BAJO).
Proof.
  unfold risk_level. rewrite !Z.geb_leb.
  destruct (Z.leb_spec 60 s), (Z.leb_spec 30 s); repeat split; intros; solve [reflexivity | lia].
Qed.

Lemma risk_engine_score (c : Cfdi) (e : EfosCheck) (evs : list Evidence) :
  score (risk_engine c e evs) =
    weight (is_efos e) 60 + weight (no_evidence evs) 25 + weight (is_generic c) 15.
Proof.
  unfold risk_engine, is_generic.
  destruct (is_efos e), evs, (bool_decide (concept_type c = GENERICO)); reflexivity.
Qed.

Lemma risk_engine_level (c : Cfdi) (e : EfosCheck) (evs : list Evidence) :
  level (risk_engine c e evs) = risk_level (score (risk_engine c e evs)).
Proof.
  unfold risk_engine.
  destruct (is_efos e), evs, (bool_decide (concept_type c = GENERICO)); reflexivity.
Qed.

(** C1. The score of [risk_engine] is 60 for a listed issuer plus 25
    for an empty evidence list plus 15 for the GENÉRICO category, hence
    one of 0, 15, 25, 40, 60, 75, 85, 100; the level is ALTO from 60 up,
    MEDIO from 30 to 59 and BAJO below 30, so that 60 is ALTO, 59 and 30
    are MEDIO and 29 is BAJO. *)
Theorem risk_engine_score_and_level (c : Cfdi) (e : EfosCheck) (evs : list Evidence) :
  let r := risk_engine c e evs in
  score r = weight (is_efos e) 60 + weight (no_evidence evs) 25 + weight (is_generic c) 15
  /\ score r ∈ [0; 15; 25; 40; 60; 75; 85; 100]
  /\ (60 <= score r -> level r = ALTO)
  /\ (30 <= score r < 60 -> level r = MEDIO)
  /\ (score r < 30 -> level r = BAJO)
  /\ risk_level 60 = ALTO /\ risk_level 59 = MEDIO
  /\ risk_level 30 = MEDIO /\ risk_level 29 = BAJO
  /\ NoDup [BAJO; MEDIO; ALTO].
Proof.
  cbv zeta. rewrite risk_engine_level.
  destruct (risk_level_spec (score (risk_engine c e evs))) as [Hhi [Hmid Hlo]].
  split; [apply risk_engine_score|].
  split.
  { rewrite risk_engine_score.
    destruct (is_efos e), (no_evidence evs), (is_generic c); simpl; in_list. }
  repeat split; try assumption; try reflexivity.
  apply levels_distinct.
Qed.

(** C8. Turning on more of the three triggers never lowers the score. *)
Theorem risk_score_monotone (c1 c2 : Cfdi) (e1 e2 : EfosCheck) (evs1 evs2 : list Evidence) :
  (is_efos e1 = true -> is_efos e2 = true) ->
  (evs1 = [] -> evs2 = []) ->
  (concept_type c1 = GENERICO -> concept_type c2 = GENERICO) ->
  score (risk_engine c1 e1 evs1) <= score (risk_engine c2 e2 evs2).
Proof.
  intros He Hv Hg. rewrite !risk_engine_score. unfold is_generic.
  assert (weight (is_efos e1) 60 <= weight (is_efos e2) 60) as H1.
  { destruct (is_efos e1); [rewrite He by reflexivity; reflexivity|].
    destruct (is_efos e2); simpl; lia. }
  assert (weight (no_evidence evs1) 25 <= weight (no_evidence evs2) 25) as H2.
  { destruct evs1; [rewrite Hv by reflexivity; reflexivity|].
    destruct evs2; simpl; lia. }
  assert (weight (bool_decide (concept_type c1 = GENERICO)) 15
          <= weight (bool_decide (concept_type c2 = GENERICO)) 15) as H3.
  { destruct (decide (concept_type c1 = GENERICO)) as [Hc|Hc].
    - rewrite (bool_decide_eq_true_2 _ Hc), (bool_decide_eq_true_2 _ (Hg Hc)). reflexivity.
    - rewrite (bool_decide_eq_false_2 _ Hc).
      destruct (bool_decide (concept_type c2 = GENERICO)); simpl; lia. }
  lia.
Qed.

(** C9. The level is ALTO exactly when the issuer is listed. *)
Theorem risk_level_alto_iff_efos (c : Cfdi) (e : EfosCheck) (evs : list Evidence) :
  level (risk_engine c e evs) = ALTO <-> is_efos e = true.
Proof.
  unfold risk_engine.
  destruct (is_efos e), evs, (bool_decide (concept_type c = GENERICO));
    split; intros H; try reflexivity; try discriminate H.
Qed.

End RiskProperties.

(** ** Computations *)

Section MonadLaws.
Context {PB : PyBuiltins}.

Lemma bind_ret_inv {A B : Type} (m : M A) (k : A -> M B) (w w' : World) (b : B) :
  (m ≫= k) w = (Ret b, w') ->
  exists a w1, m w = (Ret a, w1) /\ k a w1 = (Ret b, w').
Proof.
  unfold mbind, M_bind. destruct (m w) as [[a|e] w1]; [eauto | discriminate].
Qed.

Lemma bind_ret {A B : Type} (m : M A) (k : A -> M B) (w w1 : World) (a : A) :
  m w = (Ret a, w1) -> (m ≫= k) w = k a w1.
Proof. unfold mbind, M_bind. intros ->. reflexivity. Qed.

Lemma bind_raise {A B : Type} (m : M A) (k : A -> M B) (w w1 : World) (e : exn) :
  m w = (Raise e, w1) -> (m ≫= k) w = (Raise e, w1).
Proof. unfold mbind, M_bind. intros ->. reflexivity. Qed.

End MonadLaws.

(** ** CFDI parser *)

Section ParserProperties.
Context {PB : PyBuiltins}.

Lemma float_attr_cases (root : Element) (name : str) (w : World) :
  (exists x, float_attr root name w = (Ret x, w)
     /\ (forall s, attrib root !! name = Some s -> float_of_str s = Some x)
     /\ (attrib root !! name = None -> x = float_of_int 0))
  \/ (float_attr root name w = (Raise ValueError, w) /\ non_numeric root name).
Proof.
  unfold float_attr, non_numeric.
  destruct (attrib root !! name) as [s|] eqn:Ha.
  - destruct (float_of_str s) as [x|] eqn:Hs.
    + left. exists x. split; [reflexivity|]. split; [|discriminate].
      intros s' [= <-]. exact Hs.
    + right. split; [reflexivity|]. exists s. split; [reflexivity | exact Hs].
  - left. exists (float_of_int 0). split; [reflexivity|]. split; [discriminate | reflexivity].
Qed.


(** What a successful parse returns and what it leaves of the world:
    only the identifier source has moved. *)
Lemma parse_cfdi_xml_ret (f : Upload) (w w1 : World) (d : ParsedCfdi) :
  parse_cfdi_xml f w = (Ret d, w1) ->
  exists root,
    xml f = Some root
    /\ uuid d = next_uuid w
    /\ iva d = round_ndigits (float_sub (total d) (subtotal d)) 2
    /\ (forall s, attrib root !! py "SubTotal" = Some s -> float_of_str s = Some (subtotal d))
    /\ (forall s, attrib root !! py "Total" = Some s -> float_of_str s = Some (total d))
    /\ (attrib root !! py "SubTotal" = None -> subtotal d = float_of_int 0)
    /\ (attrib root !! py "Total" = None -> total d = float_of_int 0)
    /\ same_collections w w1
    /\ USERS w1 = USERS w
    /\ uuid_src w1 = uuid_src w /\ uuid_next w1 = S (uuid_next w)
    /\ clock_src w1 = clock_src w /\ clock_next w1 = clock_next w.
Proof.
  unfold parse_cfdi_xml. destruct (xml f) as [root|]; [|discriminate].
  intros H. exists root. split; [reflexivity|].
  apply bind_ret_inv in H as (cs & w2 & Hcs & H).
  destruct (find_cfdi (py "Conceptos") root) as [cs'|]; [|discriminate].
  injection Hcs as <- <-.
  apply bind_ret_inv in H as (sub & w2 & Hsub & H).
  destruct (float_attr_cases root (py "SubTotal") w) as [(x & Hx & Hx1 & Hx2) | [Hx _]];
    [|congruence].
  rewrite Hx in Hsub. injection Hsub as <- <-.
  apply bind_ret_inv in H as (tot & w2 & Htot & H).
  destruct (float_attr_cases root (py "Total") w) as [(y & Hy & Hy1 & Hy2) | [Hy _]];
    [|congruence].
  rewrite Hy in Htot. injection Htot as <- <-.
  unfold mbind, M_bind, uuid4 in H.
  destruct (find_cfdi (py "Emisor") root); [|discriminate].
  destruct (find_cfdi (py "Receptor") root); [|discriminate].
  destruct (find_cfdi (py "Concepto") cs'); [|discriminate].
  injection H as <- <-. unfold same_collections, next_uuid. simpl.
  repeat split; assumption.
Qed.




End ParserProperties.

(** ** CFDI upload *)

Section UploadProperties.
Context {PB : PyBuiltins}.

(** [TAXONOMY[concept_type]] never raises on a classified concept. *)
Lemma taxonomy_classified (s : str) :
  exists t, TAXONOMY !! classify_concept s = Some t.
Proof.
  unfold classify_concept. cbv zeta.
  destruct (str_in (py "SERV") _); [eexists; vm_compute; reflexivity|].
  destruct (str_in (py "ARREND") _); [eexists; vm_compute; reflexivity|].
  destruct (str_in (py "PUBLI") _ || str_in (py "MARKET") _);
    eexists; vm_compute; reflexivity.
Qed.

Lemma upload_cfdi_after_parse (f : Upload) (session : Session) (w w1 : World) (d : ParsedCfdi) :
  parse_cfdi_xml f w = (Ret d, w1) ->
  exists rec w',
    upload_cfdi f session w = (Ret (Redirect (py "dashboard")), w')
    /\ CFDIS (mem w') = CFDIS (mem w) ++ [rec]
    /\ cfdi rec = {| parsed := d; concept_type := classify_concept (concept d) |}
    /\ TAXONOMY !! classify_concept (concept d) = Some (taxonomy rec)
    /\ riesgo rec =
         risk_engine (cfdi rec) (efos rec)
           (filter (fun e => ev_cfdi_uuid e = uuid d) (EVIDENCES (mem w)))
    /\ EVIDENCES (mem w') = EVIDENCES (mem w)
    /\ (level (riesgo rec) <> BAJO ->
          exists a n, ALERTS (mem w') = ALERTS (mem w) ++ [a]
            /\ al_cfdi_uuid a = uuid d
            /\ al_level a = level (riesgo rec)
            /\ al_reasons a = reasons (riesgo rec)
            /\ al_ts a = clock_src w n)
    /\ (level (riesgo rec) = BAJO -> ALERTS (mem w') = ALERTS (mem w))
    /\ CFDIS (disk w') = CFDIS (mem w')
    /\ EVIDENCES (disk w') = EVIDENCES (disk w)
    /\ (level (riesgo rec) <> BAJO -> ALERTS (disk w') = ALERTS (mem w'))
    /\ (level (riesgo rec) = BAJO -> ALERTS (disk w') = ALERTS (disk w)).
Proof.
  intros Hp.
  destruct (parse_cfdi_xml_ret f w w1 d Hp)
    as (root & _ & Hid & _ & _ & _ & _ & _ & [Hm Hd] & _ & _ & _ & Hc & _).
  destruct (taxonomy_classified (concept d)) as [t Ht].
  unfold upload_cfdi. rewrite (bind_ret _ _ _ _ _ Hp).
  unfold getitem_TAXONOMY. cbv zeta. rewrite Ht.
  unfold mbind, M_bind, mret, M_ret, check_rfc_efos, now_isoformat, read, CFDIS_append,
    ALERTS_append, update, save_db, log, uuid4, LOGS_append, set_mem, set_disk.
  simpl. rewrite ?Hm, ?Hd, ?Hc.
  destruct (bool_decide (level _ ≠ BAJO)) eqn:Hl; simpl.
  - apply bool_decide_eq_true in Hl.
    eexists _, _. split; [reflexivity|]. simpl. rewrite ?Hm, ?Hd, ?Hc.
    split; [reflexivity|]. split; [reflexivity|]. split; [reflexivity|].
    split; [reflexivity|]. split; [reflexivity|].
    split; [intros _; eexists _, _; repeat split; reflexivity|].
    split; [intros Hb; exfalso; exact (Hl Hb)|].
    split; [reflexivity|]. split; [reflexivity|].
    split; [reflexivity|]. intros Hb; exfalso; exact (Hl Hb).
  - apply bool_decide_eq_false in Hl.
    eexists _, _. split; [reflexivity|]. simpl. rewrite ?Hm, ?Hd, ?Hc.
    split; [reflexivity|]. split; [reflexivity|]. split; [reflexivity|].
    split; [reflexivity|]. split; [reflexivity|].
    split; [intros Hb; exfalso; exact (Hl Hb)|].
    split; [reflexivity|].
    split; [reflexivity|]. split; [reflexivity|].
    split; [intros Hb; exfalso; exact (Hl Hb)|reflexivity].
Qed.

(** Whatever [parse_cfdi_xml] does, it writes to no collection. *)
Lemma parse_cfdi_xml_collections (f : Upload) (w : World) :
  same_collections w (snd (parse_cfdi_xml f w)).
Proof.
  unfold parse_cfdi_xml, same_collections.
  destruct (xml f) as [root|]; [|split; reflexivity].
  destruct (find_cfdi (py "Conceptos") root) as [cs|]; [|split; reflexivity].
  rewrite (bind_ret _ _ w w cs) by reflexivity.
  destruct (float_attr_cases root (py "SubTotal") w) as [(x & Hx & _) | [Hx _]].
  2:{ rewrite (bind_raise _ _ _ _ _ Hx). split; reflexivity. }
  rewrite (bind_ret _ _ _ _ _ Hx).
  destruct (float_attr_cases root (py "Total") w) as [(y & Hy & _) | [Hy _]].
  2:{ rewrite (bind_raise _ _ _ _ _ Hy). split; reflexivity. }
  rewrite (bind_ret _ _ _ _ _ Hy).
  unfold mbind, M_bind, uuid4.
  destruct (find_cfdi (py "Emisor") root); [|split; reflexivity].
  destruct (find_cfdi (py "Receptor") root); [|split; reflexivity].
  destruct (find_cfdi (py "Concepto") cs); split; reflexivity.
Qed.

Lemma upload_cfdi_raises (f : Upload) (session : Session) (w w1 : World) (e : exn) :
  parse_cfdi_xml f w = (Raise e, w1) ->
  upload_cfdi f session w = (Raise e, w1) /\ same_collections w w1.
Proof.
  intros Hp. split.
  - unfold upload_cfdi. apply bind_raise, Hp.
  - pose proof (parse_cfdi_xml_collections f w) as H. rewrite Hp in H. exact H.
Qed.

Lemma upload_cfdi_ret_inv (f : Upload) (session : Session) (w w' : World) (r : Response) :
  upload_cfdi f session w = (Ret r, w') ->
  exists d w1, parse_cfdi_xml f w = (Ret d, w1).
Proof.
  intros H. destruct (parse_cfdi_xml f w) as [[d|e] w1] eqn:Hp; [eauto|].
  destruct (upload_cfdi_raises f session w w1 e Hp) as [Hr _]. congruence.
Qed.

(** The wrapper as the routes use it. *)
Lemma login_required_None (fn : Session -> M Response) (session : Session) :
  login_required None fn session =
    match session !! USER_KEY with
    | None => mret (Redirect (py "login"))
    | Some _ => fn session
    end.
Proof. unfold login_required. destruct (session !! USER_KEY); reflexivity. Qed.

Lemma keep_session_snd (session : Session) (m : M Response) (w : World) :
  snd (keep_session session m w) = snd (m w).
Proof.
  unfold keep_session, mbind, M_bind. destruct (m w) as [[r|e] w1]; reflexivity.
Qed.

Lemma keep_session_ret (session : Session) (m : M Response) (w w' : World) (r : Response) :
  m w = (Ret r, w') -> keep_session session m w = (Ret (r, session), w').
Proof. unfold keep_session. intros H. rewrite (bind_ret _ _ _ _ _ H). reflexivity. Qed.

Lemma keep_session_raise (session : Session) (m : M Response) (w w' : World) (e : exn) :
  m w = (Raise e, w') -> keep_session session m w = (Raise e, w').
Proof. unfold keep_session. intros H. apply bind_raise, H. Qed.

Lemma write_csv_pure (out : list (list (str * CsvVal))) (w : World) :
  exists o, write_csv out w = (o, w).
Proof.
  unfold write_csv. destruct out as [|row rest]; [eexists; reflexivity|].
  destruct (writerows _ _); eexists; reflexivity.
Qed.

Lemma export_keeps (rows : list (list (str * CsvVal))) (path action : str)
    (session : Session) (w : World) :
  keeps_invoices w
    (snd ((content ← write_csv rows;
           _ ← log session action (py "");
           mret (SendFile path content)) w)).
Proof.
  destruct (write_csv_pure rows w) as [[c|e] H].
  - rewrite (bind_ret _ _ _ _ _ H). run_handler. repeat split.
  - rewrite (bind_raise _ _ _ _ _ H). repeat split.
Qed.

(** A request either leaves the invoice and alert lists as they were or
    is a CFDI upload whose handler returned. *)
Lemma serve_effect (req : Request) (session : Session) (w : World) :
  keeps_invoices w (serve req session w)
  \/ exists f r, req = POST_upload_cfdi f
       /\ upload_cfdi f session w = (Ret r, serve req session w).
Proof.
  unfold serve.
  destruct req as [ | | u p | | | f | id f | | | ]; simpl;
    rewrite ?keep_session_snd, ?login_required_None.
  - left. unfold home. destruct (session !! USER_KEY); repeat split.
  - left. repeat split.
  - left. unfold login_post. run_handler.
    destruct (USERS w !! u) as [account|]; [|repeat split].
    destruct (bool_decide (password account = p)); repeat split.
  - left. unfold logout. run_handler. repeat split.
  - left. destruct (session !! USER_KEY) eqn:Hs; [|repeat split].
    unfold dashboard, getitem_session, getitem_USERS. rewrite Hs. run_handler.
    destruct (USERS w !! _); repeat split.
  - destruct (session !! USER_KEY); [|left; repeat split].
    destruct (parse_cfdi_xml f w) as [[d|e] w1] eqn:Hp.
    + right. destruct (upload_cfdi_after_parse f session w w1 d Hp) as (rec & w' & H & _).
      exists f, (Redirect (py "dashboard")). rewrite H. split; reflexivity.
    + left. destruct (upload_cfdi_raises f session w w1 e Hp) as [H [Hm Hd]].
      rewrite H. unfold keeps_invoices. simpl. rewrite Hm, Hd. repeat split.
  - left. destruct (session !! USER_KEY); [|repeat split].
    unfold upload_evidence. run_handler. repeat split.
  - left. destruct (session !! USER_KEY); [|repeat split].
    unfold export_isr. unfold read at 1. unfold mbind at 1. unfold M_bind at 1.
    apply export_keeps.
  - left. destruct (session !! USER_KEY); [|repeat split].
    unfold export_iva. unfold read at 1. unfold mbind at 1. unfold M_bind at 1.
    apply export_keeps.
  - left. destruct (session !! USER_KEY); [|repeat split].
    unfold export_json. run_handler. repeat split.
Qed.


Lemma filter_fresh (id : str) (evs : list Evidence) :
  Forall (fun e => ev_cfdi_uuid e <> id) evs ->
  filter (fun e => ev_cfdi_uuid e = id) evs = [].
Proof.
  induction 1 as [|e evs He _ IH]; [reflexivity|].
  rewrite filter_cons_False by exact He. exact IH.
Qed.

Lemma risk_engine_no_evidence (c : Cfdi) (e : EfosCheck) :
  25 <= score (risk_engine c e []) /\ NO_EVIDENCE_REASON ∈ reasons (risk_engine c e []).
Proof.
  unfold risk_engine.
  destruct (is_efos e), (bool_decide (concept_type c = GENERICO)); simpl;
    (split; [lia | in_list]).
Qed.


(** C6.  An upload that returns has appended the assembled record to
    the invoice list and rewritten its file; it has appended an alert
    carrying the invoice identifier, the level, the reasons and a time
    stamp, and rewritten the alert file, exactly when the level is not
    BAJO; and no alert of a reachable world, in memory or on disk, has
    level BAJO. *)
Theorem upload_cfdi_appends_invoice_and_alert :
  (forall f session w r w',
     upload_cfdi f session w = (Ret r, w') ->
     exists rec,
       CFDIS (mem w') = CFDIS (mem w) ++ [rec]
       /\ CFDIS (disk w') = CFDIS (mem w')
       /\ (level (riesgo rec) <> BAJO ->
             exists a n, ALERTS (mem w') = ALERTS (mem w) ++ [a]
               /\ al_cfdi_uuid a = uuid (parsed (cfdi rec))
               /\ al_level a = level (riesgo rec)
               /\ al_reasons a = reasons (riesgo rec)
               /\ al_ts a = clock_src w n
               /\ ALERTS (disk w') = ALERTS (mem w'))
       /\ (level (riesgo rec) = BAJO ->
             ALERTS (mem w') = ALERTS (mem w) /\ ALERTS (disk w') = ALERTS (disk w)))
  /\ (forall w, reachable w ->
        ALERTS (disk w) = ALERTS (mem w)
        /\ forall a, a ∈ ALERTS (mem w) -> al_level a <> BAJO).
Proof.
  assert (forall f session w r w',
     upload_cfdi f session w = (Ret r, w') ->
     exists rec,
       CFDIS (mem w') = CFDIS (mem w) ++ [rec]
       /\ CFDIS (disk w') = CFDIS (mem w')
       /\ (level (riesgo rec) <> BAJO ->
             exists a n, ALERTS (mem w') = ALERTS (mem w) ++ [a]
               /\ al_cfdi_uuid a = uuid (parsed (cfdi rec))
               /\ al_level a = level (riesgo rec)
               /\ al_reasons a = reasons (riesgo rec)
               /\ al_ts a = clock_src w n
               /\ ALERTS (disk w') = ALERTS (mem w'))
       /\ (level (riesgo rec) = BAJO ->
             ALERTS (mem w') = ALERTS (mem w) /\ ALERTS (disk w') = ALERTS (disk w))) as Hstep.
  { intros f session w r w' Hu.
    destruct (upload_cfdi_ret_inv f session w w' r Hu) as (d & w1 & Hp).
    destruct (upload_cfdi_after_parse f session w w1 d Hp)
      as (rec & w'' & Hu' & Hcf & Hrec & _ & _ & _ & Hal & Hno & Hdc & _ & Hda & Hdn).
    rewrite Hu in Hu'. injection Hu' as _ <-.
    exists rec. split; [exact Hcf|]. split; [exact Hdc|]. split.
    - intros Hl. destruct (Hal Hl) as (a & n & Ha & Hid & Hlv & Hrs & Hts).
      exists a, n. rewrite Hrec. repeat split; try assumption. apply Hda, Hl.
    - intros Hl. split; [apply Hno, Hl | apply Hdn, Hl]. }
  split; [exact Hstep|].
  induction 1 as [uuids clock | req session w Hw [IHd IHa]].
  - split; [reflexivity|]. intros a Hin. simpl in Hin. inversion Hin.
  - destruct (serve_effect req session w) as [(_ & Ha & _ & Hd) | (f & r & -> & Hu)].
    + rewrite Ha, Hd. split; [exact IHd | exact IHa].
    + destruct (Hstep f session w r _ Hu) as (rec & _ & _ & Hyes & Hno).
      destruct (decide (level (riesgo rec) = BAJO)) as [Hl | Hl].
      * destruct (Hno Hl) as [Hm Hd]. rewrite Hm, Hd. split; [exact IHd | exact IHa].
      * destruct (Hyes Hl) as (a & n & Hm & _ & Hlv & _ & _ & Hd).
        split; [exact Hd|]. intros a' Hin. rewrite Hm in Hin.
        apply elem_of_app in Hin as [Hin | Hin]; [apply IHa, Hin|].
        apply list_elem_of_singleton in Hin as ->. rewrite Hlv. exact Hl.
Qed.

End UploadProperties.

(** ** Exports *)

Section ExportProperties.
Context {PB : PyBuiltins}.

Lemma filter_none {A : Type} (p : A -> bool) (l : list A) :
  Forall (fun x => p x = false) l -> List.filter p l = [].
Proof.
  induction 1 as [|x l Hx _ IH]; [reflexivity|].
  simpl. rewrite Hx. exact IH.
Qed.

Lemma export_empty (path action : str) (session : Session) (w : World) :
  exists w',
    (content ← write_csv [];
     _ ← log session action (py "");
     mret (SendFile path content)) w = (Ret (SendFile path (CsvFile [])), w')
    /\ keeps_invoices w w'.
Proof.
  run_handler. eexists. split; [reflexivity|]. simpl. repeat split.
Qed.

(** C7.  When no stored invoice is ISR-deductible, [export_isr] returns
    the CSV file to which nothing was written, neither header nor row,
    and raises nothing; likewise [export_iva] when no stored invoice is
    IVA-creditable.  The invoice and alert lists are left as they were. *)
Theorem export_without_qualifying_invoice (session : Session) (w : World) :
  (Forall (fun c => isr_deductible (taxonomy c) = false) (CFDIS (mem w)) ->
     exists w',
       export_isr session w = (Ret (SendFile (py "data/cedula_isr.csv") (CsvFile [])), w')
       /\ keeps_invoices w w')
  /\ (Forall (fun c => iva_creditable (taxonomy c) = false) (CFDIS (mem w)) ->
       exists w',
         export_iva session w = (Ret (SendFile (py "data/cedula_iva.csv") (CsvFile [])), w')
         /\ keeps_invoices w w').
Proof.
  split; intros H.
  - unfold export_isr. unfold read at 1. unfold mbind at 1. unfold M_bind at 1.
    rewrite (filter_none _ _ H). apply export_empty.
  - unfold export_iva. unfold read at 1. unfold mbind at 1. unfold M_bind at 1.
    rewrite (filter_none _ _ H). apply export_empty.
Qed.

End ExportProperties.

(** ** Access wrapper *)

Section AccessProperties.
Context {PB : PyBuiltins}.

Lemma guarded_routes_wrapped (req : Request) (body : Session -> M Response) (session : Session) :
  guarded_body req = Some body ->
  app req session = keep_session session (login_required None body session).
Proof.
  destruct req; simpl; intros H; try discriminate H; injection H as <-; reflexivity.
Qed.

(** No handler answers with the wrapper's refusal. *)
Lemma bodies_never_forbidden (req : Request) (body : Session -> M Response)
    (session : Session) (u : str) (w : World) :
  guarded_body req = Some body ->
  session !! USER_KEY = Some u ->
  fst (body session w) <> Ret Forbidden.
Proof.
  intros Hb Hs.
  destruct req as [ | | ? ? | | | f | id f | | | ]; simpl in Hb;
    try discriminate Hb; injection Hb as <-.
  - unfold dashboard, getitem_session, getitem_USERS. rewrite Hs. run_handler.
    destruct (USERS w !! u); simpl; discriminate.
  - destruct (parse_cfdi_xml f w) as [[d|e] w1] eqn:Hp.
    + destruct (upload_cfdi_after_parse f session w w1 d Hp) as (rec & w' & H & _).
      rewrite H. simpl. discriminate.
    + destruct (upload_cfdi_raises f session w w1 e Hp) as [H _].
      rewrite H. simpl. discriminate.
  - unfold upload_evidence. run_handler. discriminate.
  - unfold export_isr. unfold read at 1. unfold mbind at 1. unfold M_bind at 1.
    destruct (write_csv_pure (map isr_row
      (List.filter (fun c => isr_deductible (taxonomy c)) (CFDIS (mem w)))) w) as [[c|e] H].
    + rewrite (bind_ret _ _ _ _ _ H). run_handler. discriminate.
    + rewrite (bind_raise _ _ _ _ _ H). simpl. discriminate.
  - unfold export_iva. unfold read at 1. unfold mbind at 1. unfold M_bind at 1.
    destruct (write_csv_pure (map iva_row
      (List.filter (fun c => iva_creditable (taxonomy c)) (CFDIS (mem w)))) w) as [[c|e] H].
    + rewrite (bind_ret _ _ _ _ _ H). run_handler. discriminate.
    + rewrite (bind_raise _ _ _ _ _ H). simpl. discriminate.
  - unfold export_json. run_handler. discriminate.
Qed.

(** C10.  Each of the six guarded routes is its handler under
    [login_required] with no role; for a session that has a user,
    whoever it is, the route does what the handler does, and its answer
    is never the refusal of the wrapper. *)
Theorem guarded_routes_not_role_gated (req : Request) (body : Session -> M Response)
    (session : Session) (u : str) (w : World) :
  guarded_body req = Some body ->
  session !! USER_KEY = Some u ->
  app req session = keep_session session (login_required None body session)
  /\ app req session w = keep_session session (body session) w
  /\ login_required None body session w = body session w
  /\ forall session', fst (app req session w) <> Ret (Forbidden, session').
Proof.
  intros Hb Hs.
  pose proof (guarded_routes_wrapped req body session Hb) as Happ.
  assert (login_required None body session = body session) as Hlr.
  { rewrite login_required_None, Hs. reflexivity. }
  split; [exact Happ|]. split; [rewrite Happ, Hlr; reflexivity|].
  split; [rewrite Hlr; reflexivity|].
  intros session'. rewrite Happ, Hlr.
  pose proof (bodies_never_forbidden req body session u w Hb Hs) as Hnf.
  unfold keep_session, mbind, M_bind.
  destruct (body session w) as [[r|e] w1]; simpl in *; [|discriminate].
  intros [= Hr _]. apply Hnf. rewrite Hr. reflexivity.
Qed.

End AccessProperties.

(** ** What every request preserves *)

Section FrameProperties.
Context {PB : PyBuiltins}.

Lemma extends_refl (w : World) : extends w w.
Proof. unfold extends. repeat split; reflexivity. Qed.

Lemma extends_trans (w1 w2 w3 : World) : extends w1 w2 -> extends w2 w3 -> extends w1 w3.
Proof.
  unfold extends.
  intros (Hu & Hs & Hc & Hn & Ht & H1 & H2 & H3 & H4) (Hu' & Hs' & Hc' & Hn' & Ht' & H1' & H2' & H3' & H4').
  repeat split; try congruence; try lia; etrans; eassumption.
Qed.

Lemma respects_ret {A : Type} (a : A) : respects (mret a).
Proof. intros w. apply extends_refl. Qed.

Lemma respects_raise {A : Type} (e : exn) : respects (@raise PB A e).
Proof. intros w. apply extends_refl. Qed.

Lemma respects_read {A : Type} (f : World -> A) : respects (read f).
Proof. intros w. apply extends_refl. Qed.

Lemma respects_bind {A B : Type} (m : M A) (k : A -> M B) :
  respects m -> (forall a, respects (k a)) -> respects (m ≫= k).
Proof.
  intros Hm Hk w. specialize (Hm w). unfold mbind, M_bind.
  destruct (m w) as [[a|e] w1]; simpl in *; [|exact Hm].
  eapply extends_trans; [exact Hm | apply Hk].
Qed.

Lemma respects_uuid4 : respects uuid4.
Proof. intros w. unfold extends. simpl. repeat split; solve [reflexivity | lia]. Qed.

Lemma respects_now : respects now_isoformat.
Proof. intros w. unfold extends. simpl. repeat split; solve [reflexivity | lia]. Qed.

Lemma respects_save_db (name : DbFile) : respects (save_db name).
Proof. intros w. unfold extends. simpl. repeat split; reflexivity. Qed.

Lemma respects_CFDIS_append (r : CfdiRecord) : respects (CFDIS_append r).
Proof.
  intros w. unfold extends. simpl.
  repeat split; try reflexivity. apply prefix_app_r. reflexivity.
Qed.

Lemma respects_EVIDENCES_append (e : Evidence) : respects (EVIDENCES_append e).
Proof.
  intros w. unfold extends. simpl.
  repeat split; try reflexivity. apply prefix_app_r. reflexivity.
Qed.

Lemma respects_LOGS_append (l : LogEntry) : respects (LOGS_append l).
Proof.
  intros w. unfold extends. simpl.
  repeat split; try reflexivity. apply prefix_app_r. reflexivity.
Qed.

Lemma respects_ALERTS_append (a : Alert) : respects (ALERTS_append a).
Proof.
  intros w. unfold extends. simpl.
  repeat split; try reflexivity. apply prefix_app_r. reflexivity.
Qed.

(** One step of showing that a computation built from the primitive
    actions continues the world. *)
Ltac respects_all :=
  repeat first
    [ apply respects_ret | apply respects_raise | apply respects_read
    | apply respects_uuid4 | apply respects_now | apply respects_save_db
    | apply respects_CFDIS_append | apply respects_EVIDENCES_append
    | apply respects_LOGS_append | apply respects_ALERTS_append
    | apply respects_bind; [|intros ?]
    | match goal with
      | |- respects (match ?x with _ => _ end) => destruct x
      | |- respects (if ?b then _ else _) => destruct b
      end ].

Lemma respects_app (req : Request) (session : Session) : respects (app req session).
Proof.
  destruct req; unfold app, keep_session, login_required, truthy, home, login_post, logout,
    dashboard, upload_cfdi, upload_evidence, export_isr, export_iva, export_json,
    getitem_session, getitem_USERS, getitem_TAXONOMY, parse_cfdi_xml, check_rfc_efos,
    float_attr, deref, write_csv, log;
    cbv zeta; respects_all.
Qed.

End FrameProperties.

(** ** Invariants of the stores *)

Section StoreInvariants.
Context {PB : PyBuiltins}.

Lemma efos_listed_iff (r : option str) :
  match r with
  | Some x => bool_decide (x ∈ demo_efos)
  | None => false
  end = true <-> listed_rfc r.
Proof.
  unfold listed_rfc, demo_efos. destruct r as [x|].
  - rewrite bool_decide_eq_true, elem_of_union, !elem_of_singleton.
    split; (intros [H | H]; [left | right]); congruence.
  - split; [discriminate | intros [H | H]; discriminate].
Qed.

(** The record and the log entry a returning upload stores. *)
Lemma upload_cfdi_record (f : Upload) (session : Session) (w w1 : World) (d : ParsedCfdi) :
  parse_cfdi_xml f w = (Ret d, w1) ->
  exists rec entry w',
    upload_cfdi f session w = (Ret (Redirect (py "dashboard")), w')
    /\ CFDIS (mem w') = CFDIS (mem w) ++ [rec]
    /\ LOGS (mem w') = LOGS (mem w) ++ [entry]
    /\ parsed (cfdi rec) = d
    /\ consistent rec
    /\ riesgo rec =
         risk_engine (cfdi rec) (efos rec)
           (filter (fun e => ev_cfdi_uuid e = uuid d) (EVIDENCES (mem w)))
    /\ checked_at (efos rec) = clock_src w (clock_next w)
    /\ created_at rec = clock_src w (S (clock_next w))
    /\ log_user entry = session !! USER_KEY
    /\ log_action entry = py "UPLOAD_CFDI"
    /\ log_detail entry = filename f
    /\ (synced w -> synced w')
    /\ uuid_src w' = uuid_src w
    /\ (uuid_next w < uuid_next w')%nat.
Proof.
  intros Hp.
  destruct (parse_cfdi_xml_ret f w w1 d Hp)
    as (root & _ & Hid & Hiva & _ & _ & _ & _ & [Hm Hd] & _ & Hus & Hun & Hc & Hn).
  destruct (taxonomy_classified (concept d)) as [t Ht].
  unfold upload_cfdi. rewrite (bind_ret _ _ _ _ _ Hp).
  unfold getitem_TAXONOMY. cbv zeta. rewrite Ht.
  unfold mbind, M_bind, mret, M_ret, check_rfc_efos, now_isoformat, read, CFDIS_append,
    ALERTS_append, update, save_db, log, uuid4, LOGS_append, set_mem, set_disk, synced.
  simpl. rewrite ?Hm, ?Hd, ?Hc, ?Hn, ?Hus, ?Hun.
  destruct (bool_decide (level _ ≠ BAJO)) eqn:Hl; simpl;
    (eexists _, _, _; split; [reflexivity|]; simpl; rewrite ?Hm, ?Hd, ?Hc, ?Hn, ?Hus, ?Hun;
     split; [reflexivity|]; split; [reflexivity|]; split; [reflexivity|];
     split;
     [ unfold consistent; simpl;
       repeat split; try reflexivity; try assumption;
       try apply efos_listed_iff; apply risk_engine_level
     | repeat split; first [reflexivity | lia | intros ->; reflexivity] ]).
Qed.

Lemma log_synced (session : Session) (action detail : str) (w : World) :
  synced w -> synced (snd (log session action detail w)).
Proof. unfold synced. run_handler. intros ->. reflexivity. Qed.




Lemma serve_all_extends (reqs : list (Request * Session)) (w : World) :
  extends w (serve_all reqs w).
Proof.
  unfold serve_all. revert w. induction reqs as [|[req session] reqs IH]; intros w; simpl.
  - apply extends_refl.
  - eapply extends_trans; [|apply IH]. apply respects_app.
Qed.

(** X2.  Whatever requests are served, no stored invoice, evidence
    record, log entry or alert is changed or removed, each keeps its
    position in its list, and the user accounts stay as they were. *)
Theorem stores_only_grow (reqs : list (Request * Session)) (w : World) :
  let w' := serve_all reqs w in
  USERS w' = USERS w
  /\ (forall i r, CFDIS (mem w) !! i = Some r -> CFDIS (mem w') !! i = Some r)
  /\ (forall i e, EVIDENCES (mem w) !! i = Some e -> EVIDENCES (mem w') !! i = Some e)
  /\ (forall i l, LOGS (mem w) !! i = Some l -> LOGS (mem w') !! i = Some l)
  /\ (forall i a, ALERTS (mem w) !! i = Some a -> ALERTS (mem w') !! i = Some a).
Proof.
  cbv zeta.
  destruct (serve_all_extends reqs w) as (Hu & _ & _ & _ & _ & H1 & H2 & H3 & H4).
  split; [exact Hu|].
  repeat split; intros i x Hx; eapply prefix_lookup_Some; eassumption.
Qed.

(** X3.  Every invoice of a reachable world was built by the functions
    of the pipeline: its tax amount is the rounded difference of its
    total and subtotal, its category is the classifier's answer on its
    concept, its taxonomy entry is the table's entry for that category,
    its memo and justification are computed from it, its registry
    result is about its own issuer and flags exactly the two listed
    identifiers, and its level is the one its score gives. *)
Theorem stored_invoices_consistent (w : World) :
  reachable w -> Forall consistent (CFDIS (mem w)).
Proof.
  induction 1 as [uuids clock | req session w Hw IH].
  - constructor.
  - destruct (serve_effect req session w) as [[Hc _] | (f & r & -> & Hu)].
    + rewrite Hc. exact IH.
    + destruct (upload_cfdi_ret_inv f session w _ r Hu) as (d & w1 & Hp).
      destruct (upload_cfdi_record f session w w1 d Hp)
        as (rec & entry & w' & Hu' & Hcf & _ & _ & Hrec & _).
      rewrite Hu in Hu'. injection Hu' as _ Hw'. rewrite Hw', Hcf.
      apply Forall_app. split; [exact IH|]. constructor; [exact Hrec | constructor].
Qed.

Lemma stored_invoices_scored (w : World) :
  reachable w -> Forall (fun r => consistent r /\ scored r) (CFDIS (mem w)).
Proof.
  induction 1 as [uuids clock | req session w Hw IH].
  - constructor.
  - destruct (serve_effect req session w) as [[Hc _] | (f & r & -> & Hu)].
    + rewrite Hc. exact IH.
    + destruct (upload_cfdi_ret_inv f session w _ r Hu) as (d & w1 & Hp).
      destruct (upload_cfdi_record f session w w1 d Hp)
        as (rec & entry & w' & Hu' & Hcf & _ & _ & Hrec & Hrisk & _).
      rewrite Hu in Hu'. injection Hu' as _ Hw'. rewrite Hw', Hcf.
      apply Forall_app. split; [exact IH|].
      constructor; [|constructor]. split; [exact Hrec|]. eexists. exact Hrisk.
Qed.

Lemma level_alto_efos (c : Cfdi) (e : EfosCheck) (evs : list Evidence) :
  level (risk_engine c e evs) = ALTO <-> is_efos e = true.
Proof.
  rewrite risk_engine_level, risk_engine_score.
  destruct (is_efos e), (no_evidence evs), (is_generic c); simpl;
    split; intros H; solve [reflexivity | discriminate H].
Qed.

(** X4.  A stored invoice is ALTO exactly when its issuer identifier is
    one of the two of the demo list, and an invoice whose document has
    no issuer identifier is never ALTO. *)
Theorem stored_invoice_alto_iff_listed (w : World) (r : CfdiRecord) :
  reachable w ->
  r ∈ CFDIS (mem w) ->
  (level (riesgo r) = ALTO <-> listed_rfc (emisor_rfc (parsed (cfdi r))))
  /\ (emisor_rfc (parsed (cfdi r)) = None -> level (riesgo r) <> ALTO).
Proof.
  intros Hw Hin.
  pose proof (stored_invoices_scored w Hw) as Hall.
  rewrite Forall_forall in Hall. destruct (Hall r Hin) as [Hc [evs Hs]].
  destruct Hc as (_ & _ & _ & _ & _ & _ & Hl & _).
  assert (level (riesgo r) = ALTO <-> listed_rfc (emisor_rfc (parsed (cfdi r)))) as Hiff.
  { rewrite Hs, level_alto_efos. exact Hl. }
  split; [exact Hiff|].
  intros Hn Ha. apply Hiff in Ha. rewrite Hn in Ha. destruct Ha; discriminate.
Qed.

(** X5.  The alerts of a reachable world are, in order, the invoices
    whose level is not BAJO, each alert with the identifier, level and
    reasons of its invoice. *)
Theorem alerts_mirror_flagged_invoices (w : World) :
  reachable w ->
  map alert_summary (ALERTS (mem w))
  = map invoice_summary (filter (fun r => level (riesgo r) <> BAJO) (CFDIS (mem w))).
Proof.
  induction 1 as [uuids clock | req session w Hw IH].
  - reflexivity.
  - destruct (serve_effect req session w) as [(Hc & Ha & _) | (f & r & -> & Hu)].
    + rewrite Hc, Ha. exact IH.
    + destruct (upload_cfdi_ret_inv f session w _ r Hu) as (d & w1 & Hp).
      destruct (upload_cfdi_after_parse f session w w1 d Hp)
        as (rec & w' & Hu' & Hcf & Hrec & _ & _ & _ & Hyes & Hno & _).
      rewrite Hu in Hu'. injection Hu' as _ Hw'. rewrite Hw', Hcf, filter_app, map_app.
      destruct (decide (level (riesgo rec) = BAJO)) as [Hl | Hl].
      * rewrite (Hno Hl), filter_cons_False, filter_nil by (intros Hn; exact (Hn Hl)).
        rewrite app_nil_r. exact IH.
      * destruct (Hyes Hl) as (a & n & Ha & Hid & Hlv & Hrs & _).
        rewrite Ha, map_app, filter_cons_True, filter_nil by exact Hl.
        rewrite IH. f_equal. simpl. unfold alert_summary, invoice_summary, invoice_id.
        rewrite Hid, Hlv, Hrs, Hrec. reflexivity.
Qed.

Lemma sorted_snoc (idxs : list nat) (n : nat) :
  StronglySorted lt idxs -> Forall (fun i => (i < n)%nat) idxs ->
  StronglySorted lt (idxs ++ [n]).
Proof.
  induction 1 as [|i idxs Hs IH Hi]; intros Hn; simpl.
  - repeat constructor.
  - apply Forall_cons in Hn as [Hin Hn]. constructor; [apply IH, Hn|].
    apply Forall_app. split; [exact Hi|]. repeat constructor. exact Hin.
Qed.

Lemma sorted_injective_NoDup (g : nat -> str) (idxs : list nat) :
  (forall i j, g i = g j -> i = j) ->
  StronglySorted lt idxs -> NoDup (map g idxs).
Proof.
  intros Hg. induction 1 as [|i idxs Hs IH Hi]; simpl; constructor; [|exact IH].
  intros Hin. apply list_elem_of_In, in_map_iff in Hin as (j & Hj & Hin).
  apply Hg in Hj. subst j. rewrite Forall_forall in Hi.
  apply list_elem_of_In, Hi in Hin. lia.
Qed.

Lemma invoice_ids_drawn (w : World) :
  reachable w -> exists idxs, drawn_at idxs w.
Proof.
  induction 1 as [uuids clock | req session w Hw [idxs (Hmap & Hsorted & Hlt)]].
  - exists []. repeat split; constructor.
  - destruct (respects_app req session w) as (_ & Hsrc & _ & Hnext & _).
    fold (serve req session w) in Hsrc, Hnext.
    destruct (serve_effect req session w) as [[Hc _] | (f & r & -> & Hu)].
    + exists idxs. unfold drawn_at. rewrite Hc, Hsrc. repeat split; try assumption.
      eapply Forall_impl; [exact Hlt|]. simpl. intros i Hi. lia.
    + destruct (upload_cfdi_ret_inv f session w _ r Hu) as (d & w1 & Hp).
      destruct (parse_cfdi_xml_ret f w w1 d Hp) as (_ & _ & Hid & _).
      destruct (upload_cfdi_record f session w w1 d Hp)
        as (rec & entry & w' & Hu' & Hcf & _ & Hd & _ & _ & _ & _ & _ & _ & _ & _ & _ & Hlt').
      rewrite Hu in Hu'. injection Hu' as _ Hw'. rewrite Hw' in *.
      exists (idxs ++ [uuid_next w]). unfold drawn_at.
      rewrite Hcf, Hsrc, !map_app, Hmap. simpl. repeat split.
      * unfold invoice_id. rewrite Hd, Hid. reflexivity.
      * apply sorted_snoc; assumption.
      * apply Forall_app. split.
        -- eapply Forall_impl; [exact Hlt|]. simpl. intros i Hi. lia.
        -- repeat constructor. exact Hlt'.
Qed.

(** X6.  If the identifier source never returns the same value twice,
    no two stored invoices have the same identifier. *)
Theorem invoice_ids_unique (w : World) :
  reachable w ->
  (forall i j, uuid_src w i = uuid_src w j -> i = j) ->
  NoDup (map invoice_id (CFDIS (mem w))).
Proof.
  intros Hw Hinj. destruct (invoice_ids_drawn w Hw) as [idxs (Hmap & Hsorted & _)].
  rewrite Hmap. apply sorted_injective_NoDup; assumption.
Qed.

End StoreInvariants.

(** ** Sessions and the access wrapper *)

Section SessionProperties.
Context {PB : PyBuiltins}.

(** X7.  Without a user in the session each of the six guarded routes
    answers with the redirect to the login page and leaves the whole
    world, log included, as it was. *)
Theorem guarded_routes_need_login (req : Request) (body : Session -> M Response)
    (session : Session) (w : World) :
  guarded_body req = Some body ->
  session !! USER_KEY = None ->
  app req session w = (Ret (Redirect (py "login"), session), w).
Proof.
  intros Hb Hs. rewrite (guarded_routes_wrapped req body session Hb).
  rewrite login_required_None, Hs. reflexivity.
Qed.

(** X8.  Given a non-empty role, the wrapper runs the handler for an
    account of that role and only for it: for an account of another
    role it answers 403 and the handler is not run, so the world is as
    it was; for a session user without an account it raises [KeyError].
    An empty role string gates nothing. *)
Theorem login_required_with_role (r : str) (fn : Session -> M Response)
    (session : Session) (u : str) (w : World) :
  session !! USER_KEY = Some u ->
  (r <> [] ->
     (forall account, USERS w !! u = Some account -> role account = r ->
        login_required (Some r) fn session w = fn session w)
     /\ (forall account, USERS w !! u = Some account -> role account <> r ->
          login_required (Some r) fn session w = (Ret Forbidden, w))
     /\ (USERS w !! u = None ->
          login_required (Some r) fn session w = (Raise KeyError, w)))
  /\ login_required (Some []) fn session w = fn session w.
Proof.
  intros Hs. unfold login_required. rewrite Hs. split; [|reflexivity].
  intros Hr. destruct r as [|c r]; [contradiction|]. simpl.
  unfold getitem_USERS, read, mbind, M_bind, mret, M_ret, raise, account_role.
  repeat split.
  - intros account -> Hrole. rewrite bool_decide_eq_false_2; [reflexivity|].
    intros Hn. apply Hn. rewrite Hrole. reflexivity.
  - intros account -> Hrole. rewrite bool_decide_eq_true_2; [reflexivity|].
    intros [= Hn]. exact (Hrole Hn).
  - intros ->. reflexivity.
Qed.

(** X9.  A login with the password of an existing account puts the
    account name in the session, redirects to the dashboard and adds
    one LOGIN entry naming the account to the log; any other login
    attempt shows the login page again and leaves the session and the
    world as they were, with no trace in the log. *)
Theorem login_post_outcome (u p : str) (session : Session) (w : World) :
  (forall account, USERS w !! u = Some account -> password account = p ->
     exists entry w',
       login_post u p session w
         = (Ret (Redirect (py "dashboard"), <[USER_KEY := u]> session), w')
       /\ LOGS (mem w') = LOGS (mem w) ++ [entry]
       /\ log_user entry = Some u
       /\ log_action entry = py "LOGIN"
       /\ keeps_invoices w w'
       /\ EVIDENCES (mem w') = EVIDENCES (mem w))
  /\ (forall account, USERS w !! u = Some account -> password account <> p ->
        login_post u p session w = (Ret (RenderLogin, session), w))
  /\ (USERS w !! u = None ->
        login_post u p session w = (Ret (RenderLogin, session), w)).
Proof.
  repeat split.
  - intros account Ha Hp. unfold login_post. run_handler.
    rewrite Ha, bool_decide_eq_true_2 by exact Hp.
    eexists _, _. split; [reflexivity|]. simpl.
    rewrite lookup_insert_eq. repeat split.
  - intros account Ha Hp. unfold login_post. run_handler.
    rewrite Ha, bool_decide_eq_false_2 by exact Hp. reflexivity.
  - intros Ha. unfold login_post. run_handler. rewrite Ha. reflexivity.
Qed.

(** X10.  [logout] is not guarded: with or without a user it adds one
    LOGOUT entry for whoever the session names, empties the session and
    redirects to the login page; with the emptied session every guarded
    route redirects to the login page. *)
Theorem logout_ends_session (session : Session) (w : World) :
  exists entry w',
    logout session w = (Ret (Redirect (py "login"), (∅ : Session)), w')
    /\ LOGS (mem w') = LOGS (mem w) ++ [entry]
    /\ log_user entry = session !! USER_KEY
    /\ log_action entry = py "LOGOUT"
    /\ keeps_invoices w w'
    /\ (forall req body w2, guarded_body req = Some body ->
          app req (∅ : Session) w2 = (Ret (Redirect (py "login"), (∅ : Session)), w2)).
Proof.
  unfold logout. run_handler. eexists _, _. split; [reflexivity|]. simpl.
  repeat split. intros req body w2 Hb.
  rewrite (guarded_routes_wrapped req body ∅ Hb), login_required_None.
  rewrite lookup_empty. reflexivity.
Qed.

(** X11.  Once a login has succeeded, the dashboard opened with the
    session it returned renders, whatever requests were served in
    between, with the role of that account and with the invoice and
    alert lists of the moment; it does not raise and changes nothing. *)
Theorem dashboard_after_login (u p : str) (session session' : Session) (w w1 : World)
    (reqs : list (Request * Session)) :
  login_post u p session w = (Ret (Redirect (py "dashboard"), session'), w1) ->
  let w2 := serve_all reqs w1 in
  exists account,
    USERS w !! u = Some account
    /\ app GET_dashboard session' w2
       = (Ret (RenderDash (role account) (CFDIS (mem w2)) (ALERTS (mem w2)), session'), w2).
Proof.
  intros Hl w2.
  assert (exists account, USERS w !! u = Some account
            /\ session' = <[USER_KEY := u]> session /\ USERS w1 = USERS w)
    as (account & Ha & Hs & Hu).
  { unfold login_post in Hl. revert Hl. run_handler.
    destruct (USERS w !! u) as [account|]; [|discriminate].
    destruct (bool_decide (password account = p)); [|discriminate].
    intros [= <- <-]. exists account. repeat split. }
  exists account. split; [exact Ha|].
  destruct (serve_all_extends reqs w1) as (Hu2 & _). fold w2 in Hu2.
  simpl. rewrite login_required_None.
  assert (session' !! USER_KEY = Some u) as Hk by (rewrite Hs; apply lookup_insert_eq).
  rewrite Hk. unfold keep_session, dashboard, getitem_session, getitem_USERS.
  rewrite Hk. run_handler. rewrite Hu2, Hu, Ha. reflexivity.
Qed.

End SessionProperties.

(** ** More on the parser and the upload *)

Section ParserDetails.
Context {PB : PyBuiltins}.

Lemma find_first {A : Type} (p : A -> bool) (l : list A) (x : A) :
  List.find p l = Some x ->
  exists pre post, l = pre ++ x :: post /\ p x = true /\ Forall (fun y => p y = false) pre.
Proof.
  induction l as [|y l IH]; simpl; [discriminate|].
  destruct (p y) eqn:Hy.
  - intros [= ->]. exists [], l. repeat split; [exact Hy | constructor].
  - intros H. destruct (IH H) as (pre & post & -> & Hx & Hpre).
    exists (y :: pre), post. repeat split; [exact Hx | constructor; assumption].
Qed.

Lemma find_cfdi_first (name : str) (e x : Element) :
  find_cfdi name e = Some x ->
  exists pre post,
    children e = pre ++ x :: post
    /\ tag x = clark CFDI_NS name
    /\ Forall (fun y => tag y <> clark CFDI_NS name) pre.
Proof.
  unfold find_cfdi. intros H.
  destruct (find_first _ _ _ H) as (pre & post & Hl & Hx & Hpre).
  exists pre, post. split; [exact Hl|]. split.
  - apply bool_decide_eq_true in Hx. exact Hx.
  - eapply Forall_impl; [exact Hpre|]. simpl. intros y Hy.
    apply bool_decide_eq_false in Hy. exact Hy.
Qed.

(** X12.  Where the fields of a parsed invoice come from: the
    identifiers are the [Rfc] attributes of the first [Emisor] and
    [Receptor] children of the root ([None] when the attribute is
    absent), the date is the root's [Fecha], and the concept is the
    [Descripcion] of the first [Concepto] child of the first
    [Conceptos] child, the empty text when it has none; the line items
    after that first one are not read. *)
Theorem parse_cfdi_xml_fields (f : Upload) (w w1 : World) (d : ParsedCfdi) :
  parse_cfdi_xml f w = (Ret d, w1) ->
  exists root em re cs co,
    xml f = Some root
    /\ find_cfdi (py "Emisor") root = Some em
    /\ find_cfdi (py "Receptor") root = Some re
    /\ find_cfdi (py "Conceptos") root = Some cs
    /\ emisor_rfc d = attrib em !! py "Rfc"
    /\ receptor_rfc d = attrib re !! py "Rfc"
    /\ fecha d = attrib root !! py "Fecha"
    /\ concept d = default (py "") (attrib co !! py "Descripcion")
    /\ exists before after,
         children cs = before ++ co :: after
         /\ tag co = clark CFDI_NS (py "Concepto")
         /\ Forall (fun y => tag y <> clark CFDI_NS (py "Concepto")) before.
Proof.
  unfold parse_cfdi_xml. destruct (xml f) as [root|]; [|discriminate].
  intros H.
  apply bind_ret_inv in H as (cs & w2 & Hcs & H).
  destruct (find_cfdi (py "Conceptos") root) as [cs'|] eqn:Hfc; [|discriminate].
  injection Hcs as <- <-.
  apply bind_ret_inv in H as (sub & w2 & Hsub & H).
  destruct (float_attr_cases root (py "SubTotal") w) as [(x & Hx & _) | [Hx _]]; [|congruence].
  rewrite Hx in Hsub. injection Hsub as <- <-.
  apply bind_ret_inv in H as (tot & w2 & Htot & H).
  destruct (float_attr_cases root (py "Total") w) as [(y & Hy & _) | [Hy _]]; [|congruence].
  rewrite Hy in Htot. injection Htot as <- <-.
  unfold mbind, M_bind, uuid4 in H.
  destruct (find_cfdi (py "Emisor") root) as [em|] eqn:Hem; [|discriminate].
  destruct (find_cfdi (py "Receptor") root) as [re|] eqn:Hre; [|discriminate].
  destruct (find_cfdi (py "Concepto") cs') as [co|] eqn:Hco; [|discriminate].
  injection H as <- <-. simpl.
  destruct (find_cfdi_first _ _ _ Hco) as (pre & post & Hch & Ht & Hpre).
  exists root, em, re, cs', co.
  do 8 (split; [first [reflexivity | assumption]|]).
  exists pre, post. split; [exact Hch|]. split; [exact Ht | exact Hpre].
Qed.



End ParserDetails.

(** ** More on the risk engine *)

Section RiskDetails.
Context {PB : PyBuiltins}.

Lemma reasons_distinct : NoDup [EFOS_REASON; NO_EVIDENCE_REASON; GENERIC_REASON].
Proof. apply (bool_decide_unpack _). vm_compute. exact I. Qed.

Lemma risk_engine_reasons_eq (c : Cfdi) (e : EfosCheck) (evs : list Evidence) :
  reasons (risk_engine c e evs)
  = (if is_efos e then [EFOS_REASON] else [])
    ++ (if no_evidence evs then [NO_EVIDENCE_REASON] else [])
    ++ (if is_generic c then [GENERIC_REASON] else []).
Proof.
  unfold risk_engine, is_generic.
  destruct (is_efos e), evs, (bool_decide (concept_type c = GENERICO)); reflexivity.
Qed.

Lemma no_evidence_reason_iff (c : Cfdi) (e : EfosCheck) (evs : list Evidence) :
  NO_EVIDENCE_REASON ∈ reasons (risk_engine c e evs) <-> evs = [].
Proof.
  rewrite risk_engine_reasons_eq.
  destruct (is_efos e), evs as [|ev evs], (is_generic c); simpl;
    (split; [intros H | intros H; try discriminate H; in_list]);
    try reflexivity; exfalso;
    apply (bool_decide_pack _) in H; vm_compute in H; exact H.
Qed.

(** X14.  The reasons of [risk_engine] are those of the rules that
    fired, in the order issuer listed, no evidence, generic concept;
    each reason is present exactly when its rule fired; the level is
    MEDIO exactly when the issuer is not listed, there is no evidence
    and the concept is generic; and there is no reason exactly when the
    score is 0. *)
Theorem risk_engine_reasons (c : Cfdi) (e : EfosCheck) (evs : list Evidence) :
  let r := risk_engine c e evs in
  reasons r
  = (if is_efos e then [EFOS_REASON] else [])
    ++ (if no_evidence evs then [NO_EVIDENCE_REASON] else [])
    ++ (if is_generic c then [GENERIC_REASON] else [])
  /\ (EFOS_REASON ∈ reasons r <-> is_efos e = true)
  /\ (NO_EVIDENCE_REASON ∈ reasons r <-> evs = [])
  /\ (GENERIC_REASON ∈ reasons r <-> concept_type c = GENERICO)
  /\ (level r = MEDIO <-> is_efos e = false /\ evs = [] /\ concept_type c = GENERICO)
  /\ (reasons r = [] <-> score r = 0).
Proof.
  cbv zeta. split; [apply risk_engine_reasons_eq|].
  split; [|split; [apply no_evidence_reason_iff|]].
  - rewrite risk_engine_reasons_eq.
    destruct (is_efos e), (no_evidence evs), (is_generic c); simpl;
      (split; [intros H | intros H; try discriminate H; in_list]);
      try reflexivity; exfalso;
      apply (bool_decide_pack _) in H; vm_compute in H; exact H.
  - split; [|split].
    + rewrite risk_engine_reasons_eq. unfold is_generic.
      destruct (decide (concept_type c = GENERICO)) as [Hg | Hg];
        [rewrite (bool_decide_eq_true_2 _ Hg) | rewrite (bool_decide_eq_false_2 _ Hg)];
        destruct (is_efos e), (no_evidence evs); simpl;
        (split; [intros H | intros H; try contradiction; in_list]);
        try assumption; exfalso;
        apply (bool_decide_pack _) in H; vm_compute in H; exact H.
    + rewrite risk_engine_level, risk_engine_score. unfold is_generic.
      destruct (decide (concept_type c = GENERICO)) as [Hg | Hg];
        [rewrite (bool_decide_eq_true_2 _ Hg) | rewrite (bool_decide_eq_false_2 _ Hg)];
        destruct (is_efos e), evs as [|ev evs]; simpl;
        (split; [intros H | intros (H1 & H2 & H3)]);
        solve [ discriminate | contradiction | reflexivity | repeat split; assumption ].
    + rewrite risk_engine_reasons_eq, risk_engine_score.
      destruct (is_efos e), (no_evidence evs), (is_generic c); simpl;
        split; intros H; solve [reflexivity | discriminate H].
Qed.

Lemma filter_nil_fresh (id : str) (evs : list Evidence) :
  filter (fun e => ev_cfdi_uuid e = id) evs = [] ->
  Forall (fun e => ev_cfdi_uuid e <> id) evs.
Proof.
  induction evs as [|e evs IH]; intros H; [constructor|].
  destruct (decide (ev_cfdi_uuid e = id)) as [He | He].
  - rewrite filter_cons_True in H by exact He. discriminate.
  - rewrite filter_cons_False in H by exact He. constructor; [exact He | apply IH, H].
Qed.

(** X15.  The invoice stored by an upload carries the no-evidence
    reason, and the 25 points that go with it, exactly when no evidence
    record already in the store names the identifier just drawn for
    it. *)
Theorem upload_scores_stored_evidence (f : Upload) (session : Session) (w w' : World)
    (r : Response) :
  upload_cfdi f session w = (Ret r, w') ->
  exists rec,
    CFDIS (mem w') = CFDIS (mem w) ++ [rec]
    /\ invoice_id rec = next_uuid w
    /\ (NO_EVIDENCE_REASON ∈ reasons (riesgo rec) <-> fresh_for (next_uuid w) w)
    /\ (fresh_for (next_uuid w) w -> 25 <= score (riesgo rec))
    /\ (~ fresh_for (next_uuid w) w -> score (riesgo rec) ∈ [0; 15; 60; 75]).
Proof.
  intros Hu.
  destruct (upload_cfdi_ret_inv f session w w' r Hu) as (d & w1 & Hp).
  destruct (parse_cfdi_xml_ret f w w1 d Hp) as (_ & _ & Hid & _).
  destruct (upload_cfdi_after_parse f session w w1 d Hp)
    as (rec & w'' & Hu' & Hcf & Hrec & _ & Hrisk & _).
  rewrite Hu in Hu'. injection Hu' as _ <-.
  assert (NO_EVIDENCE_REASON ∈ reasons (riesgo rec) <-> fresh_for (next_uuid w) w) as Hiff.
  { rewrite Hrisk, no_evidence_reason_iff, Hid. unfold fresh_for. split.
    - apply filter_nil_fresh.
    - apply filter_fresh. }
  exists rec. split; [exact Hcf|]. split; [unfold invoice_id; rewrite Hrec; exact Hid|].
  split; [exact Hiff|]. split.
  - intros Hf. apply Hiff in Hf. rewrite Hrisk in Hf |- *.
    apply no_evidence_reason_iff in Hf. rewrite Hf. apply risk_engine_no_evidence.
  - intros Hf. rewrite <- Hiff, Hrisk, no_evidence_reason_iff in Hf.
    rewrite Hrisk, risk_engine_score.
    destruct (filter _ _) as [|ev evs]; [contradiction|].
    destruct (is_efos (efos rec)), (is_generic (cfdi rec)); simpl; in_list.
Qed.

End RiskDetails.

(** ** More on the exports and on evidence *)

Section LedgerDetails.
Context {PB : PyBuiltins}.

Lemma writerows_cons (fieldnames : list str) (row : list (str * CsvVal))
    (rest : list (list (str * CsvVal))) :
  writerows fieldnames (row :: rest)
  = match dict_to_list fieldnames row with
    | None => None
    | Some cells =>
        match writerows fieldnames rest with
        | None => None
        | Some more => Some (cells :: more)
        end
    end.
Proof. reflexivity. Qed.

Lemma writerows_isr (cs : list CfdiRecord) :
  writerows isr_fieldnames (map isr_row cs) = Some (map isr_cells cs).
Proof.
  induction cs as [|c cs IH]; [reflexivity|].
  assert (dict_to_list isr_fieldnames (isr_row c) = Some (isr_cells c)) as Hrow
    by (vm_compute; reflexivity).
  rewrite !map_cons, writerows_cons, Hrow, IH. reflexivity.
Qed.

Lemma writerows_iva (cs : list CfdiRecord) :
  writerows iva_fieldnames (map iva_row cs) = Some (map iva_cells cs).
Proof.
  induction cs as [|c cs IH]; [reflexivity|].
  assert (dict_to_list iva_fieldnames (iva_row c) = Some (iva_cells c)) as Hrow
    by (vm_compute; reflexivity).
  rewrite !map_cons, writerows_cons, Hrow, IH. reflexivity.
Qed.

Lemma write_csv_isr (cs : list CfdiRecord) (w : World) :
  write_csv (map isr_row cs) w = (Ret (csv_of isr_fieldnames (map isr_cells cs)), w).
Proof.
  destruct cs as [|c cs]; [reflexivity|].
  pose proof (writerows_isr (c :: cs)) as H. rewrite map_cons in H.
  unfold write_csv. rewrite !map_cons. cbv beta iota zeta.
  change (map fst (isr_row c)) with isr_fieldnames. rewrite H. reflexivity.
Qed.

Lemma write_csv_iva (cs : list CfdiRecord) (w : World) :
  write_csv (map iva_row cs) w = (Ret (csv_of iva_fieldnames (map iva_cells cs)), w).
Proof.
  destruct cs as [|c cs]; [reflexivity|].
  pose proof (writerows_iva (c :: cs)) as H. rewrite map_cons in H.
  unfold write_csv. rewrite !map_cons. cbv beta iota zeta.
  change (map fst (iva_row c)) with iva_fieldnames. rewrite H. reflexivity.
Qed.

(** X16.  The two ledger exports never raise.  Each returns a file
    that is empty when no stored invoice has the flag of its ledger and
    otherwise is the header row followed by one row per flagged
    invoice, in the order of the store, with the identifier, the issuer
    (empty when [None]), the concept, the amount of the memo and
    [True]; each adds one entry to the log and changes no invoice and
    no alert. *)
Theorem ledger_exports_content (session : Session) (w : World) :
  (exists entry w',
     export_isr session w
       = (Ret (SendFile (py "data/cedula_isr.csv")
                 (csv_of isr_fieldnames
                    (map isr_cells
                       (List.filter (fun c => isr_deductible (taxonomy c)) (CFDIS (mem w)))))),
          w')
     /\ LOGS (mem w') = LOGS (mem w) ++ [entry]
     /\ log_action entry = py "EXPORT_ISR"
     /\ log_user entry = session !! USER_KEY
     /\ keeps_invoices w w')
  /\ (exists entry w',
        export_iva session w
          = (Ret (SendFile (py "data/cedula_iva.csv")
                    (csv_of iva_fieldnames
                       (map iva_cells
                          (List.filter (fun c => iva_creditable (taxonomy c)) (CFDIS (mem w)))))),
             w')
        /\ LOGS (mem w') = LOGS (mem w) ++ [entry]
        /\ log_action entry = py "EXPORT_IVA"
        /\ log_user entry = session !! USER_KEY
        /\ keeps_invoices w w').
Proof.
  split.
  - unfold export_isr. unfold read at 1. unfold mbind at 1. unfold M_bind at 1.
    rewrite (bind_ret _ _ _ _ _ (write_csv_isr _ w)).
    run_handler. eexists _, _. split; [reflexivity|]. simpl. repeat split.
  - unfold export_iva. unfold read at 1. unfold mbind at 1. unfold M_bind at 1.
    rewrite (bind_ret _ _ _ _ _ (write_csv_iva _ w)).
    run_handler. eexists _, _. split; [reflexivity|]. simpl. repeat split.
Qed.

(** The flags of the entry of a classified concept. *)
Lemma taxonomy_flags (s : str) (t : TaxonomyEntry) :
  TAXONOMY !! classify_concept s = Some t ->
  isr_deductible t = negb (bool_decide (classify_concept s = GENERICO))
  /\ iva_creditable t = negb (bool_decide (classify_concept s = GENERICO)).
Proof.
  unfold classify_concept. cbv zeta.
  destruct (str_in (py "SERV") _).
  { intros H. vm_compute in H. injection H as <-. split; vm_compute; reflexivity. }
  destruct (str_in (py "ARREND") _).
  { intros H. vm_compute in H. injection H as <-. split; vm_compute; reflexivity. }
  destruct (str_in (py "PUBLI") _ || str_in (py "MARKET") _).
  { intros H. vm_compute in H. injection H as <-. split; vm_compute; reflexivity. }
  intros H. vm_compute in H. injection H as <-. split; vm_compute; reflexivity.
Qed.

Lemma filter_agree {A : Type} (p q : A -> bool) (l : list A) :
  Forall (fun x => p x = q x) l -> List.filter p l = List.filter q l.
Proof.
  induction 1 as [|x l Hx _ IH]; [reflexivity|].
  simpl. rewrite Hx, IH. reflexivity.
Qed.

(** X17.  In every reachable world the two ledgers list the same
    invoices: those whose category is not GENÉRICO. *)
Theorem ledgers_list_the_classified (w : World) :
  reachable w ->
  List.filter (fun c => isr_deductible (taxonomy c)) (CFDIS (mem w))
    = List.filter (fun c => negb (bool_decide (concept_type (cfdi c) = GENERICO)))
        (CFDIS (mem w))
  /\ List.filter (fun c => iva_creditable (taxonomy c)) (CFDIS (mem w))
      = List.filter (fun c => negb (bool_decide (concept_type (cfdi c) = GENERICO)))
          (CFDIS (mem w)).
Proof.
  intros Hw. pose proof (stored_invoices_scored w Hw) as Hall.
  split; apply filter_agree; (eapply Forall_impl; [exact Hall|]); simpl;
    intros c [(_ & Hct & Htx & _) _]; rewrite Hct in Htx |- *;
    apply taxonomy_flags in Htx; apply Htx.
Qed.


End LedgerDetails.

(** * The model on the sample inputs *)

Example GENERICO_code_points :
  GENERICO = [71; 69; 78; 201; 82; 73; 67; 79]%N.
Proof. reflexivity. Qed.

Example classify_consultoria :
  classify_concept (py "Servicios de Consultoría") = SERVICIOS_PROFESIONALES.
Proof. vm_compute. reflexivity. Qed.

Example classify_servicio_y_publicidad :
  classify_concept (py "Servicio de publicidad y marketing") = SERVICIOS_PROFESIONALES.
Proof. vm_compute. reflexivity. Qed.

Example classify_renta :
  classify_concept (py "Renta de oficina") = GENERICO.
Proof. vm_compute. reflexivity. Qed.

Example classify_arrendamiento :
  classify_concept (py "arrendamiento de local") = ARRENDAMIENTO.
Proof. vm_compute. reflexivity. Qed.

Example parse_sample_doc :
  fst (parse_cfdi_xml (as_upload "factura.xml" sample_doc) sample_world) = Ret sample_parsed.
Proof. vm_compute. reflexivity. Qed.

Example risk_consultoria_no_evidence :
  risk_engine {| parsed := sample_parsed; concept_type := SERVICIOS_PROFESIONALES |}
              not_listed []
  = {| score := 25; level := BAJO; reasons := [NO_EVIDENCE_REASON] |}.
Proof. vm_compute. reflexivity. Qed.

Example risk_consultoria_listed :
  risk_engine {| parsed := sample_parsed; concept_type := SERVICIOS_PROFESIONALES |}
              listed []
  = {| score := 85; level := ALTO; reasons := [EFOS_REASON; NO_EVIDENCE_REASON] |}.
Proof. vm_compute. reflexivity. Qed.

Example risk_leasing_with_evidence :
  risk_engine {| parsed := sample_parsed; concept_type := ARRENDAMIENTO |}
              not_listed one_evidence
  = {| score := 0; level := BAJO; reasons := [] |}.
Proof. vm_compute. reflexivity. Qed.

Example risk_all_triggers :
  risk_engine {| parsed := sample_parsed; concept_type := GENERICO |} listed []
  = {| score := 100; level := ALTO;
       reasons := [EFOS_REASON; NO_EVIDENCE_REASON; GENERIC_REASON] |}.
Proof. vm_compute. reflexivity. Qed.

Example export_isr_with_invoice :
  fst (export_isr director_session world_with_invoice)
  = Ret (SendFile (py "data/cedula_isr.csv")
           (CsvFile
              [ [VStr (py "uuid"); VStr (py "rfc_emisor"); VStr (py "concepto");
                 VStr (py "base"); VStr (py "deducible")];
                [VStr (sample_uuids 2); VStr (py "AAA010101AAA");
                 VStr (py "Servicios de consultoría"); VFloat (FStr (py "100.00"));
                 VBool true] ])).
Proof. vm_compute. reflexivity. Qed.

(** With a role, the wrapper does refuse the other role. *)
Example login_required_with_role_refuses :
  fst (login_required (Some (py "DIRECTOR")) dashboard contador_session sample_world)
  = Ret Forbidden.
Proof. vm_compute. reflexivity. Qed.





Lemma world_with_invoice_reachable : reachable world_with_invoice.
Proof. repeat apply reachable_serve. apply reachable_init. Defined.


(** C6, on the same world: its one invoice is ALTO and has its alert. *)
Lemma appends_invoice_and_alert_sample :
  map al_level (ALERTS (mem world_with_invoice)) = [ALTO]
  /\ ALERTS (disk world_with_invoice) = ALERTS (mem world_with_invoice)
  /\ Forall (fun a => al_level a <> BAJO) (ALERTS (mem world_with_invoice)).
Proof.
  split; [vm_compute; reflexivity|].
  destruct (proj2 upload_cfdi_appends_invoice_and_alert world_with_invoice
              world_with_invoice_reachable) as [Hd Ha].
  split; [exact Hd|]. apply Forall_forall. exact Ha.
Defined.

(** C7, on the world whose only invoice is GENÉRICO. *)
Lemma export_without_qualifying_invoice_sample :
  map (fun r => concept_type (cfdi r)) (CFDIS (mem world_with_generic)) = [GENERICO]
  /\ (exists w',
        export_isr director_session world_with_generic
          = (Ret (SendFile (py "data/cedula_isr.csv") (CsvFile [])), w')
        /\ keeps_invoices world_with_generic w')
  /\ (exists w',
        export_iva director_session world_with_generic
          = (Ret (SendFile (py "data/cedula_iva.csv") (CsvFile [])), w')
        /\ keeps_invoices world_with_generic w').
Proof.
  split; [vm_compute; reflexivity|].
  destruct (export_without_qualifying_invoice director_session world_with_generic)
    as [Hisr Hiva].
  split.
  - apply Hisr. apply (bool_decide_unpack _). vm_compute. exact I.
  - apply Hiva. apply (bool_decide_unpack _). vm_compute. exact I.
Defined.

(** C8, from no trigger to all three. *)
Lemma risk_score_monotone_sample :
  score (risk_engine {| parsed := sample_parsed; concept_type := ARRENDAMIENTO |}
                     not_listed one_evidence)
  <= score (risk_engine {| parsed := sample_parsed; concept_type := GENERICO |} listed []).
Proof.
  apply risk_score_monotone.
  - intros _. reflexivity.
  - intros _. reflexivity.
  - intros _. reflexivity.
Defined.

(** C10, for the accountant on the ISR export. *)
Lemma guarded_routes_not_role_gated_sample :
  app GET_export_isr contador_session
    = keep_session contador_session (login_required None export_isr contador_session)
  /\ app GET_export_isr contador_session sample_world
       = keep_session contador_session (export_isr contador_session) sample_world
  /\ login_required None export_isr contador_session sample_world
       = export_isr contador_session sample_world
  /\ forall session',
       fst (app GET_export_isr contador_session sample_world) <> Ret (Forbidden, session').
Proof.
  apply (guarded_routes_not_role_gated GET_export_isr export_isr contador_session
           (py "contador@arkanum") sample_world).
  - reflexivity.
  - vm_compute. reflexivity.
Defined.


(** X3, on the same world. *)
Lemma stored_invoices_consistent_sample :
  length (CFDIS (mem world_with_invoice)) = 1%nat
  /\ Forall consistent (CFDIS (mem world_with_invoice)).
Proof.
  split; [vm_compute; reflexivity|].
  exact (stored_invoices_consistent world_with_invoice world_with_invoice_reachable).
Defined.

(** X4, on the same world, whose invoice has a listed issuer. *)
Lemma stored_invoice_alto_iff_listed_sample :
  map (fun r => emisor_rfc (parsed (cfdi r))) (CFDIS (mem world_with_invoice))
    = [Some (py "AAA010101AAA")]
  /\ Forall (fun r =>
       (level (riesgo r) = ALTO <-> listed_rfc (emisor_rfc (parsed (cfdi r))))
       /\ (emisor_rfc (parsed (cfdi r)) = None -> level (riesgo r) <> ALTO))
     (CFDIS (mem world_with_invoice)).
Proof.
  split; [vm_compute; reflexivity|].
  apply Forall_forall. intros r Hin.
  exact (stored_invoice_alto_iff_listed world_with_invoice r world_with_invoice_reachable Hin).
Defined.

(** X5, on the same world. *)
Lemma alerts_mirror_flagged_invoices_sample :
  map alert_summary (ALERTS (mem world_with_invoice))
  = map invoice_summary
      (filter (fun r => level (riesgo r) <> BAJO) (CFDIS (mem world_with_invoice))).
Proof.
  exact (alerts_mirror_flagged_invoices world_with_invoice world_with_invoice_reachable).
Defined.

(** X6, on the world with two invoices. *)
Lemma invoice_ids_unique_sample :
  NoDup (map invoice_id (CFDIS (mem world_with_two_invoices))).
Proof.
  apply invoice_ids_unique.
  - repeat apply reachable_serve. apply reachable_init.
  - intros i j H. change (numbered_uuids i = numbered_uuids j) in H.
    injection H as H. apply Nat2N.inj, H.
Defined.

(** X7, for the dashboard opened without a session. *)
Lemma guarded_routes_need_login_sample :
  app GET_dashboard (∅ : Session) sample_world
  = (Ret (Redirect (py "login"), (∅ : Session)), sample_world).
Proof.
  apply (guarded_routes_need_login GET_dashboard dashboard).
  - reflexivity.
  - apply lookup_empty.
Defined.

(** X8, for the accountant and the role DIRECTOR. *)
Lemma login_required_with_role_sample :
  (py "DIRECTOR" <> [] ->
     (forall account, USERS sample_world !! py "contador@arkanum" = Some account ->
        role account = py "DIRECTOR" ->
        login_required (Some (py "DIRECTOR")) dashboard contador_session sample_world
          = dashboard contador_session sample_world)
     /\ (forall account, USERS sample_world !! py "contador@arkanum" = Some account ->
          role account <> py "DIRECTOR" ->
          login_required (Some (py "DIRECTOR")) dashboard contador_session sample_world
            = (Ret Forbidden, sample_world))
     /\ (USERS sample_world !! py "contador@arkanum" = None ->
          login_required (Some (py "DIRECTOR")) dashboard contador_session sample_world
            = (Raise KeyError, sample_world)))
  /\ login_required (Some []) dashboard contador_session sample_world
     = dashboard contador_session sample_world.
Proof.
  apply (login_required_with_role (py "DIRECTOR") dashboard contador_session
           (py "contador@arkanum") sample_world).
  vm_compute. reflexivity.
Defined.

(** X11, for the director, with an invoice uploaded after the login. *)
Lemma dashboard_after_login_sample :
  let session' : Session := <[USER_KEY := py "director@arkanum"]> ∅ in
  let w1 := snd (login_post (py "director@arkanum") (py "1234") ∅ sample_world) in
  let w2 := serve_all [(POST_upload_cfdi (as_upload "factura.xml" sample_doc), session')] w1 in
  exists account,
    USERS sample_world !! py "director@arkanum" = Some account
    /\ app GET_dashboard session' w2
       = (Ret (RenderDash (role account) (CFDIS (mem w2)) (ALERTS (mem w2)), session'), w2).
Proof.
  cbv zeta.
  apply (dashboard_after_login (py "director@arkanum") (py "1234") ∅).
  vm_compute. reflexivity.
Defined.

(** X12, on the sample document. *)
Lemma parse_cfdi_xml_fields_sample :
  exists root em re cs co,
    xml (as_upload "factura.xml" sample_doc) = Some root
    /\ find_cfdi (py "Emisor") root = Some em
    /\ find_cfdi (py "Receptor") root = Some re
    /\ find_cfdi (py "Conceptos") root = Some cs
    /\ emisor_rfc sample_parsed = attrib em !! py "Rfc"
    /\ receptor_rfc sample_parsed = attrib re !! py "Rfc"
    /\ fecha sample_parsed = attrib root !! py "Fecha"
    /\ concept sample_parsed = default (py "") (attrib co !! py "Descripcion")
    /\ exists before after,
         children cs = before ++ co :: after
         /\ tag co = clark CFDI_NS (py "Concepto")
         /\ Forall (fun y => tag y <> clark CFDI_NS (py "Concepto")) before.
Proof.
  apply (parse_cfdi_xml_fields (as_upload "factura.xml" sample_doc) sample_world
           (snd (parse_cfdi_xml (as_upload "factura.xml" sample_doc) sample_world))).
  vm_compute. reflexivity.
Defined.

(** X15, on the upload that made [world_with_invoice]. *)
Lemma upload_scores_stored_evidence_sample :
  exists rec,
    CFDIS (mem world_with_invoice) = CFDIS (mem world_with_evidence) ++ [rec]
    /\ invoice_id rec = next_uuid world_with_evidence
    /\ (NO_EVIDENCE_REASON ∈ reasons (riesgo rec)
        <-> fresh_for (next_uuid world_with_evidence) world_with_evidence)
    /\ (fresh_for (next_uuid world_with_evidence) world_with_evidence ->
        25 <= score (riesgo rec))
    /\ (~ fresh_for (next_uuid world_with_evidence) world_with_evidence ->
        score (riesgo rec) ∈ [0; 15; 60; 75]).
Proof.
  apply (upload_scores_stored_evidence (as_upload "factura.xml" sample_doc) director_session
           world_with_evidence world_with_invoice (Redirect (py "dashboard"))).
  vm_compute. reflexivity.
Defined.

(** X17, on the world with one classified invoice. *)
Lemma ledgers_list_the_classified_sample :
  List.filter (fun c => isr_deductible (taxonomy c)) (CFDIS (mem world_with_invoice))
    = List.filter (fun c => negb (bool_decide (concept_type (cfdi c) = GENERICO)))
        (CFDIS (mem world_with_invoice))
  /\ List.filter (fun c => iva_creditable (taxonomy c)) (CFDIS (mem world_with_invoice))
      = List.filter (fun c => negb (bool_decide (concept_type (cfdi c) = GENERICO)))
          (CFDIS (mem world_with_invoice)).
Proof.
  exact (ledgers_list_the_classified world_with_invoice world_with_invoice_reachable).
Defined.

